(** * ANDRTF3: acquisition and validation core of the temperature-sensor driver

    A shallow embedding of [ANDRTF3.h] / [ANDRTF3.cpp] (namespace [andrtf3]):
    the configuration and reading records, the engine object with its
    fault counter and bound output pointers, the synchronous entry point
    [readTemperature] (through [performRead]), the asynchronous entry point
    [requestTemperature], the queued-response callback [onAsyncResponse]
    with [handleReadComplete], and the small accessors.

    Conventions.
    - Fixed-width integers are [Z] with the wrap-around written out
      ([to_uint8], [to_uint32], [to_int16]).
    - The transport ([readInputRegistersWithPriority]) and the clock
      ([millis]) are external: what they return is an input of each
      operation.
    - The engine object, the externally owned cells the bound pointers refer
      to, and the process-wide [ModbusErrorTracker] form the [World] the
      member functions run in; the functions are written in a state monad
      over it.
    - Log macros only print and are left out. *)

From Stdlib Require Import ZArith List String Bool Lia.
Import ListNotations.
Local Open Scope string_scope.
Local Open Scope Z_scope.

(** ** Machine integers *)

Definition to_uint8 (z : Z) : Z := z mod 256.
Definition to_uint16 (z : Z) : Z := z mod 65536.
Definition to_uint32 (z : Z) : Z := z mod 4294967296.

(** [static_cast<int16_t>] of an integer value: two's complement. *)
Definition to_int16 (z : Z) : Z :=
  let w := to_uint16 z in if w <? 32768 then w else w - 65536.

Definition is_uint8 (z : Z) : Prop := 0 <= z < 256.
Definition is_uint16 (z : Z) : Prop := 0 <= z < 65536.
Definition is_uint32 (z : Z) : Prop := 0 <= z < 4294967296.

(** ** Transport results *)

(** The enumerators of [modbus::ModbusError] that [modbusErrorToString]
    names; [OTHER_ERROR] stands for any enumerator that reaches the
    [default] label of its switch. *)
Inductive ModbusError : Type :=
  | SUCCESS | ILLEGAL_FUNCTION | ILLEGAL_DATA_ADDRESS | ILLEGAL_DATA_VALUE
  | SLAVE_DEVICE_FAILURE | TIMEOUT | CRC_ERROR | INVALID_RESPONSE
  | QUEUE_FULL | NOT_INITIALIZED | COMMUNICATION_ERROR | INVALID_PARAMETER
  | RESOURCE_ERROR | NULL_POINTER | NOT_SUPPORTED | MUTEX_ERROR
  | INVALID_DATA_LENGTH | DEVICE_NOT_FOUND | RESOURCE_CREATION_FAILED
  | INVALID_ADDRESS | OTHER_ERROR.

Definition modbusErrorToString (e : ModbusError) : string :=
  match e with
  | SUCCESS => "Success"
  | ILLEGAL_FUNCTION => "Illegal function"
  | ILLEGAL_DATA_ADDRESS => "Illegal data address"
  | ILLEGAL_DATA_VALUE => "Illegal data value"
  | SLAVE_DEVICE_FAILURE => "Slave device failure"
  | TIMEOUT => "Timeout"
  | CRC_ERROR => "CRC error"
  | INVALID_RESPONSE => "Invalid response"
  | QUEUE_FULL => "Queue full"
  | NOT_INITIALIZED => "Not initialized"
  | COMMUNICATION_ERROR => "Communication error"
  | INVALID_PARAMETER => "Invalid parameter"
  | RESOURCE_ERROR => "Resource error"
  | NULL_POINTER => "Null pointer"
  | NOT_SUPPORTED => "Not supported"
  | MUTEX_ERROR => "Mutex error"
  | INVALID_DATA_LENGTH => "Invalid data length"
  | DEVICE_NOT_FOUND => "Device not found"
  | RESOURCE_CREATION_FAILED => "Resource creation failed"
  | INVALID_ADDRESS => "Invalid address"
  | OTHER_ERROR => "Unknown error"
  end.

(** [ModbusResult<std::vector<uint16_t>>]: either the registers read or the
    transport error. *)
Inductive ModbusResult : Type :=
  | Ok (values : list Z)
  | Err (e : ModbusError).

Definition isOk (r : ModbusResult) : bool :=
  match r with Ok _ => true | Err _ => false end.

(** ** Data model (ANDRTF3.h) *)

Record Config : Type := mkConfig {
  address : Z;   (* uint8_t  *)
  timeout : Z;   (* uint16_t *)
  retries : Z    (* uint8_t  *)
}.

Record TemperatureData : Type := mkTemperatureData {
  celsius : Z;        (* int16_t, tenths of a degree *)
  timestamp : Z;      (* uint32_t, millis() when read *)
  valid : bool;
  error : string
}.

(** Addresses of the externally owned cells. *)
Definition ptr : Type := nat.

Record ANDRTF3 : Type := mkANDRTF3 {
  serverAddress : Z;               (* QueuedModbusDevice(address) *)
  _config : Config;
  _lastReading : TemperatureData;
  _connected : bool;
  _asyncPending : bool;            (* std::atomic<bool> *)
  _asyncStartTime : Z;             (* uint32_t *)
  _temperaturePtr : option ptr;    (* int16_t*, None is nullptr *)
  _validityPtr : option ptr;       (* bool*,    None is nullptr *)
  _consecutive0x0000Errors : Z;    (* uint8_t *)
  _lastErrorTime : Z               (* uint32_t *)
}.

Definition TEMP_REGISTER : Z := 50.
Definition FUNCTION_CODE : Z := 4.
Definition REGISTER_COUNT : Z := 1.
Definition TEMP_MIN : Z := -400.
Definition TEMP_MAX : Z := 1250.

(** Caller-owned memory: the [int16_t] cells and the [bool] cells. *)
Record Memory : Type := mkMemory {
  int16_cells : ptr -> Z;
  bool_cells : ptr -> bool
}.

Definition store {A : Type} (m : ptr -> A) (p : ptr) (v : A) : ptr -> A :=
  fun q => if Nat.eqb q p then v else m q.

(** Calls received by the static [modbus::ModbusErrorTracker], oldest
    first.  [categorizeError] belongs to the tracker; the call is recorded
    with the error it was given. *)
Inductive ErrorCategory : Type :=
  | INVALID_DATA
  | categorizeError (e : ModbusError).

Inductive TrackerCall : Type :=
  | recordedError (addr : Z) (c : ErrorCategory)
  | recordedSuccess (addr : Z).

Record World : Type := mkWorld {
  self : ANDRTF3;
  memory : Memory;
  tracker : list TrackerCall
}.

(** ** State monad over the world *)

Definition M (A : Type) : Type := World -> A * World.

Definition ret {A : Type} (a : A) : M A := fun w => (a, w).

Definition bind {A B : Type} (c : M A) (k : A -> M B) : M B :=
  fun w => let (a, w') := c w in k a w'.

Notation "x <- c ;; k" := (bind c (fun x => k))
  (at level 61, c at next level, right associativity).
Notation "c ;; k" := (bind c (fun _ => k))
  (at level 61, right associativity).

Definition get {A : Type} (f : ANDRTF3 -> A) : M A :=
  fun w => (f (self w), w).

Definition modify (f : ANDRTF3 -> ANDRTF3) : M unit :=
  fun w => (tt, mkWorld (f (self w)) (memory w) (tracker w)).

Definition exec {A : Type} (c : M A) (w : World) : World := snd (c w).
Definition result {A : Type} (c : M A) (w : World) : A := fst (c w).

(** Field assignments. *)
Definition with_lastReading (f : TemperatureData -> TemperatureData)
    (s : ANDRTF3) : ANDRTF3 :=
  mkANDRTF3 (serverAddress s) (_config s) (f (_lastReading s)) (_connected s)
    (_asyncPending s) (_asyncStartTime s) (_temperaturePtr s) (_validityPtr s)
    (_consecutive0x0000Errors s) (_lastErrorTime s).

Definition set_celsius (v : Z) : M unit :=
  modify (with_lastReading (fun r =>
    mkTemperatureData v (timestamp r) (valid r) (error r))).
Definition set_timestamp (t : Z) : M unit :=
  modify (with_lastReading (fun r =>
    mkTemperatureData (celsius r) t (valid r) (error r))).
Definition set_valid (b : bool) : M unit :=
  modify (with_lastReading (fun r =>
    mkTemperatureData (celsius r) (timestamp r) b (error r))).
Definition set_error (e : string) : M unit :=
  modify (with_lastReading (fun r =>
    mkTemperatureData (celsius r) (timestamp r) (valid r) e)).

Definition set_config (c : Config) : M unit :=
  modify (fun s => mkANDRTF3 (serverAddress s) c (_lastReading s)
    (_connected s) (_asyncPending s) (_asyncStartTime s) (_temperaturePtr s)
    (_validityPtr s) (_consecutive0x0000Errors s) (_lastErrorTime s)).
Definition set_connected (b : bool) : M unit :=
  modify (fun s => mkANDRTF3 (serverAddress s) (_config s) (_lastReading s)
    b (_asyncPending s) (_asyncStartTime s) (_temperaturePtr s)
    (_validityPtr s) (_consecutive0x0000Errors s) (_lastErrorTime s)).
Definition set_asyncPending (b : bool) : M unit :=
  modify (fun s => mkANDRTF3 (serverAddress s) (_config s) (_lastReading s)
    (_connected s) b (_asyncStartTime s) (_temperaturePtr s)
    (_validityPtr s) (_consecutive0x0000Errors s) (_lastErrorTime s)).
Definition set_asyncStartTime (t : Z) : M unit :=
  modify (fun s => mkANDRTF3 (serverAddress s) (_config s) (_lastReading s)
    (_connected s) (_asyncPending s) t (_temperaturePtr s)
    (_validityPtr s) (_consecutive0x0000Errors s) (_lastErrorTime s)).
Definition set_pointers (t v : option ptr) : M unit :=
  modify (fun s => mkANDRTF3 (serverAddress s) (_config s) (_lastReading s)
    (_connected s) (_asyncPending s) (_asyncStartTime s) t v
    (_consecutive0x0000Errors s) (_lastErrorTime s)).
Definition set_consecutive0x0000Errors (n : Z) : M unit :=
  modify (fun s => mkANDRTF3 (serverAddress s) (_config s) (_lastReading s)
    (_connected s) (_asyncPending s) (_asyncStartTime s) (_temperaturePtr s)
    (_validityPtr s) n (_lastErrorTime s)).
Definition set_lastErrorTime (t : Z) : M unit :=
  modify (fun s => mkANDRTF3 (serverAddress s) (_config s) (_lastReading s)
    (_connected s) (_asyncPending s) (_asyncStartTime s) (_temperaturePtr s)
    (_validityPtr s) (_consecutive0x0000Errors s) t).

(** [*p = v] through a possibly null pointer, guarded as in the source by
    [if (p != nullptr)]. *)
Definition write_int16 (p : option ptr) (v : Z) : M unit :=
  fun w => match p with
           | Some a => (tt, mkWorld (self w)
                          (mkMemory (store (int16_cells (memory w)) a v)
                                    (bool_cells (memory w))) (tracker w))
           | None => (tt, w)
           end.

Definition write_bool (p : option ptr) (b : bool) : M unit :=
  fun w => match p with
           | Some a => (tt, mkWorld (self w)
                          (mkMemory (int16_cells (memory w))
                                    (store (bool_cells (memory w)) a b))
                          (tracker w))
           | None => (tt, w)
           end.

Definition recordError (addr : Z) (c : ErrorCategory) : M unit :=
  fun w => (tt, mkWorld (self w) (memory w)
                  (tracker w ++ [recordedError addr c])).

Definition recordSuccess (addr : Z) : M unit :=
  fun w => (tt, mkWorld (self w) (memory w)
                  (tracker w ++ [recordedSuccess addr])).

Definition getServerAddress : M Z := get serverAddress.

(** ** Construction and configuration *)

Definition getDefaultConfig : Config :=
  mkConfig 3      (* address *)
           200    (* timeout *)
           3.     (* retries *)

(** [ANDRTF3::ANDRTF3(uint8_t address)].  [_lastReading.error] is a
    default-constructed (empty) [String]. *)
Definition construct (addr : Z) : ANDRTF3 :=
  let c := getDefaultConfig in
  mkANDRTF3 addr
    (mkConfig addr (timeout c) (retries c))
    (mkTemperatureData 0 0 false EmptyString)
    false false 0 None None 0 0.

Definition setConfig (config : Config) : M unit := set_config config.
Definition getConfig : M Config := get _config.
Definition getDeviceAddress : M Z := getServerAddress.
Definition getTemperature : M Z := get (fun s => celsius (_lastReading s)).
Definition getTemperatureData : M TemperatureData := get _lastReading.
Definition isConnected : M bool := get _connected.

Definition bindTemperaturePointers (tempPtr validPtr : option ptr) : M unit :=
  set_pointers tempPtr validPtr.

(** ** The synchronous cycle *)

(** [result] is what [readInputRegistersWithPriority(TEMP_REGISTER, 1,
    SENSOR)] returned and [now] what [millis()] returns in the branch that
    calls it. *)
Definition performRead (result : ModbusResult) (now : Z) : M bool :=
  addr <- getServerAddress ;;
  match result with
  | Err e =>
      recordError addr (categorizeError e) ;;
      set_valid false ;;
      set_error (modbusErrorToString e) ;;
      set_connected false ;;
      ret false
  | Ok [] =>
      recordError addr INVALID_DATA ;;
      set_valid false ;;
      set_error "No data returned" ;;
      set_connected false ;;
      ret false
  | Ok (values0 :: _) =>
      let rawValue := to_int16 values0 in
      if (rawValue =? 0) || (values0 =? 65535) then
        n <- get _consecutive0x0000Errors ;;
        set_consecutive0x0000Errors (to_uint8 (n + 1)) ;;
        recordError addr INVALID_DATA ;;
        set_valid false ;;
        set_error (if values0 =? 65535 then "Modbus error 0xFFFF"
                   else "Sensor returned 0x0000") ;;
        n' <- get _consecutive0x0000Errors ;;
        set_connected (n' <? 3) ;;
        set_lastErrorTime now ;;
        ret false
      else if (rawValue <? TEMP_MIN) || (rawValue >? TEMP_MAX) then
        recordError addr INVALID_DATA ;;
        set_valid false ;;
        set_error "Temperature out of range" ;;
        set_connected false ;;
        ret false
      else
        recordSuccess addr ;;
        set_celsius rawValue ;;
        set_timestamp now ;;
        set_valid true ;;
        set_error EmptyString ;;
        set_connected true ;;
        set_consecutive0x0000Errors 0 ;;
        ret true
  end.

Definition readTemperature (result : ModbusResult) (now : Z) : M bool :=
  success <- performRead result now ;;
  (if negb success then set_connected false else ret tt) ;;
  ret success.

(** ** The asynchronous entry point *)

(** The readings of [millis()] during one call of [requestTemperature]:
    in the staleness test, when the cycle starts, and in the branch that
    stamps the fault or the reading. *)
Record Millis : Type := mkMillis {
  at_check : Z;
  at_start : Z;
  at_end : Z
}.

Definition requestTemperature (result : ModbusResult) (clk : Millis) : M bool :=
  pending <- get _asyncPending ;;
  started <- get _asyncStartTime ;;
  config <- get _config ;;
  (if pending && (to_uint32 (at_check clk - started) >? timeout config)
   then set_asyncPending false else ret tt) ;;
  pending <- get _asyncPending ;;
  if pending then ret false
  else
    set_asyncPending true ;;
    set_asyncStartTime (at_start clk) ;;
    addr <- getServerAddress ;;
    match result with
    | Err e =>
        recordError addr (categorizeError e) ;;
        set_asyncPending false ;;
        set_valid false ;;
        set_error (modbusErrorToString e) ;;
        set_connected false ;;
        ret false
    | Ok [] =>
        recordError addr INVALID_DATA ;;
        set_asyncPending false ;;
        set_valid false ;;
        set_error "No data returned" ;;
        set_connected false ;;
        ret false
    | Ok (values0 :: _) =>
        let rawValue := to_int16 values0 in
        if (rawValue =? 0) || (values0 =? 65535) then
          n <- get _consecutive0x0000Errors ;;
          set_consecutive0x0000Errors (to_uint8 (n + 1)) ;;
          recordError addr INVALID_DATA ;;
          set_asyncPending false ;;
          set_valid false ;;
          set_error (if values0 =? 65535 then "Modbus error 0xFFFF"
                     else "Sensor returned 0x0000") ;;
          n' <- get _consecutive0x0000Errors ;;
          set_connected (n' <? 3) ;;
          set_lastErrorTime (at_end clk) ;;
          ret false
        else if (rawValue <? TEMP_MIN) || (rawValue >? TEMP_MAX) then
          recordError addr INVALID_DATA ;;
          set_asyncPending false ;;
          set_valid false ;;
          set_error "Temperature out of range" ;;
          set_connected false ;;
          ret false
        else
          recordSuccess addr ;;
          set_celsius rawValue ;;
          set_timestamp (at_end clk) ;;
          set_valid true ;;
          set_error EmptyString ;;
          set_connected true ;;
          set_consecutive0x0000Errors 0 ;;
          tp <- get _temperaturePtr ;;
          write_int16 tp rawValue ;;
          vp <- get _validityPtr ;;
          write_bool vp true ;;
          set_asyncPending false ;;
          ret true
    end.

Definition isReadComplete : M bool :=
  pending <- get _asyncPending ;; ret (negb pending).

(** [getAsyncResult(TemperatureData& data)]: the copy assigned to the
    caller's object [data], and the returned flag.  The assignment is
    modelled by returning the copy; the caller's object is not a cell of
    [Memory]. *)
Definition getAsyncResult : M (TemperatureData * bool) :=
  r <- get _lastReading ;; ret (r, valid r).

(** ** Queued responses *)

Definition handleReadComplete (success : bool) (value : Z) (now : Z) : M unit :=
  if success then
    set_celsius value ;;
    set_timestamp now ;;
    set_valid true ;;
    set_error EmptyString ;;
    set_connected true ;;
    tp <- get _temperaturePtr ;;
    write_int16 tp value ;;
    vp <- get _validityPtr ;;
    write_bool vp true
  else
    set_valid false ;;
    set_connected false ;;
    vp <- get _validityPtr ;;
    write_bool vp false.

(** [data] holds the [length] payload bytes. *)
Definition onAsyncResponse (functionCode address : Z) (data : list Z)
    (now : Z) : M unit :=
  addr <- getServerAddress ;;
  if negb (functionCode =? FUNCTION_CODE) then ret tt
  else if negb (address =? TEMP_REGISTER) then ret tt
  else
    match data with
    | data0 :: data1 :: _ =>
        let rawValue := to_int16 (Z.lor (Z.shiftl data0 8) data1) in
        let unsignedValue := to_uint16 rawValue in
        if (rawValue =? 0) || (unsignedValue =? 65535) then
          n <- get _consecutive0x0000Errors ;;
          set_consecutive0x0000Errors (to_uint8 (n + 1)) ;;
          recordError addr INVALID_DATA ;;
          set_valid false ;;
          set_error (if unsignedValue =? 65535 then "Modbus error 0xFFFF"
                     else "Sensor returned 0x0000") ;;
          n' <- get _consecutive0x0000Errors ;;
          set_connected (n' <? 3) ;;
          set_lastErrorTime now
        else
          set_consecutive0x0000Errors 0 ;;
          recordSuccess addr ;;
          handleReadComplete true rawValue now
    | _ =>
        recordError addr INVALID_DATA ;;
        set_valid false ;;
        set_error "Invalid response length" ;;
        set_connected false
    end ;;
    set_asyncPending false.

(** ** Operation sequences *)

(** The public operations a caller can issue, each with what the transport
    and the clock answer during the call. *)
Inductive Op : Type :=
  | callReadTemperature (result : ModbusResult) (now : Z)
  | callRequestTemperature (result : ModbusResult) (clk : Millis)
  | callIsReadComplete
  | callGetAsyncResult
  | callSetConfig (config : Config)
  | callBindTemperaturePointers (tempPtr validPtr : option ptr).

Definition step (o : Op) (w : World) : World :=
  match o with
  | callReadTemperature r now => exec (readTemperature r now) w
  | callRequestTemperature r clk => exec (requestTemperature r clk) w
  | callIsReadComplete => exec isReadComplete w
  | callGetAsyncResult => exec getAsyncResult w
  | callSetConfig c => exec (setConfig c) w
  | callBindTemperaturePointers t v => exec (bindTemperaturePointers t v) w
  end.

Definition run (ops : list Op) (w : World) : World :=
  fold_left (fun acc o => step o acc) ops w.

(** The world right after the constructor ran with caller memory [m]. *)
Definition boot (addr : Z) (m : Memory) : World :=
  mkWorld (construct addr) m [].

Inductive reachable : World -> Prop :=
  | reach_boot : forall addr m, reachable (boot addr m)
  | reach_step : forall w o, reachable w -> reachable (step o w).

Definition blank : Memory := mkMemory (fun _ => 0) (fun _ => false).

Definition reading (w : World) : TemperatureData := _lastReading (self w).
Definition connected (w : World) : bool := _connected (self w).
Definition rejections (w : World) : Z := _consecutive0x0000Errors (self w).

(** * Vocabulary of the properties *)

(** What every failing branch leaves in the reading store: value and
    timestamp as before, the flag cleared, the given text. *)
Definition failed_reading (old : TemperatureData) (msg : string)
  : TemperatureData :=
  mkTemperatureData (celsius old) (timestamp old) false msg.

(** The test of line 78 of [requestTemperature]: a cycle is pending and
    older than the configured timeout. *)
Definition stale (clk : Millis) (w : World) : bool :=
  _asyncPending (self w)
  && (to_uint32 (at_check clk - _asyncStartTime (self w))
        >? timeout (_config (self w))).

(** [requestTemperature] goes past its two guards: nothing is pending, or
    what is pending is stale. *)
Definition begins_cycle (clk : Millis) (w : World) : bool :=
  negb (_asyncPending (self w)) || stale clk w.

(** The two tests the cycle makes on the register, as written at lines
    226 and 250 of [performRead] (116 and 140 of [requestTemperature]). *)
Definition is_sentinel (values0 : Z) : bool :=
  (to_int16 values0 =? 0) || (values0 =? 65535).

Definition out_of_range (rawValue : Z) : bool :=
  (rawValue <? TEMP_MIN) || (rawValue >? TEMP_MAX).

Definition sentinel_text (values0 : Z) : string :=
  if values0 =? 65535 then "Modbus error 0xFFFF" else "Sensor returned 0x0000".

(** The reading store after a cycle that read [values0], stamped [now]. *)
Definition cycle_reading (old : TemperatureData) (values0 now : Z)
  : TemperatureData :=
  if is_sentinel values0 then failed_reading old (sentinel_text values0)
  else if out_of_range (to_int16 values0)
       then failed_reading old "Temperature out of range"
       else mkTemperatureData (to_int16 values0) now true EmptyString.

Definition cycle_ok (values0 : Z) : bool :=
  negb (is_sentinel values0) && negb (out_of_range (to_int16 values0)).

(** The reading store [r] that the classification rule prescribes for
    register value [values0], given the store [old] before the cycle and
    the millisecond stamp [stamp] of the cycle. *)
Definition classified (old : TemperatureData) (values0 stamp : Z)
    (r : TemperatureData) : Prop :=
  (values0 = 0 -> r = failed_reading old "Sensor returned 0x0000") /\
  (values0 = 65535 -> r = failed_reading old "Modbus error 0xFFFF") /\
  (values0 <> 0 -> values0 <> 65535 ->
   -400 <= to_int16 values0 <= 1250 ->
   r = mkTemperatureData (to_int16 values0) stamp true EmptyString) /\
  (values0 <> 0 -> values0 <> 65535 ->
   ~ (-400 <= to_int16 values0 <= 1250) ->
   r = failed_reading old "Temperature out of range").

(** A register value the cycle rejects: a sentinel, or a signed value
    outside the sensor's envelope. *)
Definition rejected (values0 : Z) : Prop :=
  values0 = 0 \/ values0 = 65535 \/ ~ (-400 <= to_int16 values0 <= 1250).

(** Value and timestamp as in [old], flag cleared, some error text. *)
Definition stale_reading (old r : TemperatureData) : Prop :=
  celsius r = celsius old /\ timestamp r = timestamp old /\
  valid r = false /\ error r <> EmptyString.

(** A transport result as the transport can deliver it: the registers are
    16-bit values. *)
Definition wf_result (r : ModbusResult) : Prop :=
  match r with
  | Ok values => Forall is_uint16 values
  | Err _ => True
  end.

(** The engine right after construction, with a cycle marked pending
    since time [started]. *)
Definition pending_since (started : Z) : World :=
  exec (set_asyncPending true ;; set_asyncStartTime started) (boot 3 blank).

Definition reading_invariant (r : TemperatureData) : Prop :=
  valid r = true -> error r = EmptyString /\ -400 <= celsius r <= 1250.

(** Asynchronous requests that each read a sentinel. *)
Definition sentinel_requests (faults : list (Z * Millis)) : list Op :=
  map (fun f => callRequestTemperature (Ok [fst f]) (snd f)) faults.

(** The claim as the specification words it: the flag goes from true to
    false only in a state whose rejection counter has reached 3. *)
Definition drops_only_after_three : Prop :=
  forall w o, reachable w ->
    connected w = true -> connected (step o w) = false ->
    3 <= rejections (step o w).

Definition config_invariant (c : Config) : Prop :=
  1 <= address c <= 247 /\ 0 < timeout c.

(** An operation that, if it sets the configuration, sets one within the
    documented bounds. *)
Definition configures_within_bounds (o : Op) : Prop :=
  match o with
  | callSetConfig c => config_invariant c
  | _ => True
  end.

(** ** Queued deliveries, error texts, payload bytes *)

(** What can happen to an engine in service: the caller issues a public
    operation, or the framework's queue hands a response to
    [onAsyncResponse]. *)
Inductive Event : Type :=
  | call (o : Op)
  | deliver (functionCode address : Z) (data : list Z) (now : Z).

Definition occur (ev : Event) (w : World) : World :=
  match ev with
  | call o => step o w
  | deliver fc reg data now => exec (onAsyncResponse fc reg data now) w
  end.

Inductive in_service : World -> Prop :=
  | service_boot : forall addr m, in_service (boot addr m)
  | service_event : forall w ev, in_service w -> in_service (occur ev w).

(** The error texts the driver writes itself, as opposed to the display
    strings of transport errors. *)
Definition driver_texts : list string :=
  ["No data returned"; "Modbus error 0xFFFF"; "Sensor returned 0x0000";
   "Temperature out of range"; "Invalid response length"].

(** The two payload bytes of a register value on the wire, high byte
    first. *)
Definition wire_bytes (register : Z) : list Z :=
  [register / 256; register mod 256].

(** The tracker call a cycle makes for a transport result, under server
    address [addr]. *)
Definition tracker_call (addr : Z) (res : ModbusResult) : TrackerCall :=
  match res with
  | Err e => recordedError addr (categorizeError e)
  | Ok [] => recordedError addr INVALID_DATA
  | Ok (values0 :: _) =>
      if cycle_ok values0 then recordedSuccess addr
      else recordedError addr INVALID_DATA
  end.

(** An event whose transport result, if it carries one, holds 16-bit
    registers. *)
Definition well_formed (ev : Event) : Prop :=
  match ev with
  | call (callReadTemperature res _) => wf_result res
  | call (callRequestTemperature res _) => wf_result res
  | _ => True
  end.

Definition serve (evs : list Event) (w : World) : World :=
  fold_left (fun acc ev => occur ev acc) evs w.

(** What holds of an engine in service between events. *)
Definition service_invariant (w : World) : Prop :=
  _asyncPending (self w) = false /\
  0 <= rejections w < 256 /\
  (connected w = true -> rejections w < 3) /\
  (valid (reading w) = true ->
   error (reading w) = EmptyString /\ celsius (reading w) <> 0 /\
   -32768 <= celsius (reading w) < 32768) /\
  (valid (reading w) = true -> connected w = true /\ rejections w = 0).

(** ** The outcome of a cycle as a function of the transport result *)

(** The flag a cycle returns for transport result [res]. *)
Definition cycle_flag (res : ModbusResult) : bool :=
  match res with
  | Ok (values0 :: _) => cycle_ok values0
  | _ => false
  end.

(** The reading store a cycle leaves for transport result [res], from the
    store [old], stamped [stamp]. *)
Definition cycle_store (old : TemperatureData) (res : ModbusResult)
    (stamp : Z) : TemperatureData :=
  match res with
  | Err e => failed_reading old (modbusErrorToString e)
  | Ok [] => failed_reading old "No data returned"
  | Ok (values0 :: _) => cycle_reading old values0 stamp
  end.

(** * Properties *)

(** Comparisons and casts stay folded while the monadic code is run, so
    that each branch condition can be named. *)
#[local] Arguments Z.gtb : simpl never.
#[local] Arguments Z.ltb : simpl never.
#[local] Arguments Z.eqb : simpl never.
#[local] Arguments to_int16 : simpl never.
#[local] Arguments to_uint8 : simpl never.
#[local] Arguments to_uint16 : simpl never.
#[local] Arguments to_uint32 : simpl never.

(** Open the world record, substitute what the hypotheses say about its
    fields, and run the monadic code. *)
Ltac idle w :=
  destruct w as [[sa cfg rd conn pend started tp vp cnt errt] mem trk];
  cbn in *; subst; cbn.

(** ** Frame lemmas for the cycle's failure paths *)

Lemma performRead_Err : forall e now w,
  result (performRead (Err e) now) w = false /\
  reading (exec (performRead (Err e) now) w)
    = failed_reading (reading w) (modbusErrorToString e) /\
  connected (exec (performRead (Err e) now) w) = false.
Proof. intros; repeat split. Qed.

Lemma readTemperature_Err : forall e now w,
  result (readTemperature (Err e) now) w = false /\
  reading (exec (readTemperature (Err e) now) w)
    = failed_reading (reading w) (modbusErrorToString e) /\
  connected (exec (readTemperature (Err e) now) w) = false.
Proof. intros; repeat split. Qed.

Ltac enter w H :=
  unfold begins_cycle, stale in H;
  destruct w as [[sa cfg rd conn pend started tp vp cnt errt] mem trk];
  destruct pend; cbn in H;
  [ unfold result, exec, requestTemperature, bind, get; cbn; rewrite H; cbn
  | clear H; cbn ].

Lemma requestTemperature_Err : forall e clk w,
  begins_cycle clk w = true ->
  result (requestTemperature (Err e) clk) w = false /\
  reading (exec (requestTemperature (Err e) clk) w)
    = failed_reading (reading w) (modbusErrorToString e) /\
  connected (exec (requestTemperature (Err e) clk) w) = false.
Proof. intros e clk w H; enter w H; repeat split. Qed.

Lemma performRead_empty : forall now w,
  result (performRead (Ok []) now) w = false /\
  reading (exec (performRead (Ok []) now) w)
    = failed_reading (reading w) "No data returned" /\
  connected (exec (performRead (Ok []) now) w) = false.
Proof. intros; repeat split. Qed.

Lemma readTemperature_empty : forall now w,
  result (readTemperature (Ok []) now) w = false /\
  reading (exec (readTemperature (Ok []) now) w)
    = failed_reading (reading w) "No data returned" /\
  connected (exec (readTemperature (Ok []) now) w) = false.
Proof. intros; repeat split. Qed.

Lemma requestTemperature_empty : forall clk w,
  begins_cycle clk w = true ->
  result (requestTemperature (Ok []) clk) w = false /\
  reading (exec (requestTemperature (Ok []) clk) w)
    = failed_reading (reading w) "No data returned" /\
  connected (exec (requestTemperature (Ok []) clk) w) = false.
Proof. intros clk w H; enter w H; repeat split. Qed.

Lemma no_data_is_not_a_transport_text : forall e,
  modbusErrorToString e <> "No data returned".
Proof. destruct e; discriminate. Qed.

(** ** Transport failure (C6) *)

(** C6.  When the transport call itself fails with error [e], the cycle,
    through [performRead], [readTemperature] or a [requestTemperature] that
    begins a cycle, changes only the valid flag and the error text of the
    reading store: value and timestamp keep their previous contents, the
    flag is false and the text is the display string of [e]. *)
Theorem transport_failure_frame : forall e now clk w,
  reading (exec (performRead (Err e) now) w)
    = failed_reading (reading w) (modbusErrorToString e) /\
  reading (exec (readTemperature (Err e) now) w)
    = failed_reading (reading w) (modbusErrorToString e) /\
  (begins_cycle clk w = true ->
   reading (exec (requestTemperature (Err e) clk) w)
     = failed_reading (reading w) (modbusErrorToString e)).
Proof.
  intros e now clk w. split; [|split].
  - apply performRead_Err.
  - apply readTemperature_Err.
  - intro H. apply requestTemperature_Err, H.
Qed.

Lemma transport_failure_frame_witness :
  let w := run [callReadTemperature (Ok [264]) 1000] (boot 3 blank) in
  let clk := mkMillis 6000 6001 6050 in
  begins_cycle clk w = true /\
  reading (exec (requestTemperature (Err TIMEOUT) clk) w)
    = mkTemperatureData 264 1000 false "Timeout".
Proof.
  split; [reflexivity|].
  apply (transport_failure_frame TIMEOUT 0
           (mkMillis 6000 6001 6050)
           (run [callReadTemperature (Ok [264]) 1000] (boot 3 blank))).
  reflexivity.
Defined.

(** ** Empty reply (C10) *)

(** C10.  When the transport call succeeds with an empty register
    sequence, the operation returns false, the reading store keeps value
    and timestamp while its flag becomes false with the text
    "No data returned", and the connected flag becomes false.  The text is
    none of the transport errors' display strings. *)
Theorem empty_reply_is_a_failure : forall now clk w,
  (result (performRead (Ok []) now) w = false /\
   reading (exec (performRead (Ok []) now) w)
     = failed_reading (reading w) "No data returned" /\
   connected (exec (performRead (Ok []) now) w) = false) /\
  (result (readTemperature (Ok []) now) w = false /\
   reading (exec (readTemperature (Ok []) now) w)
     = failed_reading (reading w) "No data returned" /\
   connected (exec (readTemperature (Ok []) now) w) = false) /\
  (begins_cycle clk w = true ->
   result (requestTemperature (Ok []) clk) w = false /\
   reading (exec (requestTemperature (Ok []) clk) w)
     = failed_reading (reading w) "No data returned" /\
   connected (exec (requestTemperature (Ok []) clk) w) = false) /\
  (forall e, modbusErrorToString e <> "No data returned").
Proof.
  intros now clk w. split; [|split; [|split]].
  - apply performRead_empty.
  - apply readTemperature_empty.
  - apply requestTemperature_empty.
  - apply no_data_is_not_a_transport_text.
Qed.

Lemma empty_reply_is_a_failure_witness :
  let w := run [callReadTemperature (Ok [264]) 1000] (boot 3 blank) in
  let clk := mkMillis 6000 6001 6050 in
  begins_cycle clk w = true /\
  result (requestTemperature (Ok []) clk) w = false /\
  reading (exec (requestTemperature (Ok []) clk) w)
    = mkTemperatureData 264 1000 false "No data returned" /\
  connected (exec (requestTemperature (Ok []) clk) w) = false.
Proof.
  split; [reflexivity|].
  apply (empty_reply_is_a_failure 0
           (mkMillis 6000 6001 6050)
           (run [callReadTemperature (Ok [264]) 1000] (boot 3 blank))).
  reflexivity.
Defined.

(** ** One register read: what a cycle leaves behind *)

Ltac unroll :=
  unfold result, exec, readTemperature, performRead, requestTemperature,
    bind, get, getServerAddress; cbn.

Ltac branches :=
  unfold cycle_reading, cycle_ok, is_sentinel, out_of_range, sentinel_text;
  repeat match goal with
         | |- context [Z.eqb ?a ?b] => destruct (Z.eqb a b) eqn:?
         | |- context [Z.ltb ?a ?b] => destruct (Z.ltb a b) eqn:?
         | |- context [Z.gtb ?a ?b] => destruct (Z.gtb a b) eqn:?
         end; cbn;
  repeat match goal with
         | E : ?c = _ |- context [?c] => rewrite E; cbn
         end.

Lemma performRead_Ok : forall values0 rest now w,
  result (performRead (Ok (values0 :: rest)) now) w = cycle_ok values0 /\
  reading (exec (performRead (Ok (values0 :: rest)) now) w)
    = cycle_reading (reading w) values0 now.
Proof. intros; idle w; unroll; branches; split; reflexivity. Qed.

Lemma readTemperature_Ok : forall values0 rest now w,
  result (readTemperature (Ok (values0 :: rest)) now) w = cycle_ok values0 /\
  reading (exec (readTemperature (Ok (values0 :: rest)) now) w)
    = cycle_reading (reading w) values0 now.
Proof. intros; idle w; unroll; branches; split; reflexivity. Qed.

Lemma requestTemperature_Ok : forall values0 rest clk w,
  begins_cycle clk w = true ->
  result (requestTemperature (Ok (values0 :: rest)) clk) w
    = cycle_ok values0 /\
  reading (exec (requestTemperature (Ok (values0 :: rest)) clk) w)
    = cycle_reading (reading w) values0 (at_end clk).
Proof.
  intros values0 rest clk w H; enter w H; unroll; branches;
    destruct tp, vp; split; reflexivity.
Qed.

Lemma to_int16_uint16 : forall z, is_uint16 z ->
  to_int16 z = if z <? 32768 then z else z - 65536.
Proof.
  intros z Hz. unfold to_int16, to_uint16.
  rewrite Z.mod_small by exact Hz. reflexivity.
Qed.

Lemma to_int16_bounds : forall z, -32768 <= to_int16 z < 32768.
Proof.
  intro z. unfold to_int16, to_uint16.
  pose proof (Z.mod_pos_bound z 65536 ltac:(lia)).
  destruct (z mod 65536 <? 32768) eqn:E;
    [apply Z.ltb_lt in E | apply Z.ltb_ge in E]; lia.
Qed.

Lemma is_sentinel_true : forall z, is_uint16 z ->
  (is_sentinel z = true <-> z = 0 \/ z = 65535).
Proof.
  intros z Hz. unfold is_sentinel. rewrite (to_int16_uint16 z Hz).
  unfold is_uint16 in Hz. rewrite orb_true_iff, !Z.eqb_eq.
  destruct (z <? 32768) eqn:E;
    [apply Z.ltb_lt in E | apply Z.ltb_ge in E]; lia.
Qed.

Lemma is_sentinel_false : forall z, is_uint16 z ->
  (is_sentinel z = false <-> z <> 0 /\ z <> 65535).
Proof.
  intros z Hz. pose proof (is_sentinel_true z Hz) as H.
  destruct (is_sentinel z); split; intro K; try discriminate; try reflexivity.
  - destruct K as [K0 K1]. destruct (proj1 H eq_refl); contradiction.
  - split; intro E; assert (false = true) by (apply H; auto); discriminate.
Qed.

Lemma out_of_range_false : forall x,
  out_of_range x = false <-> -400 <= x <= 1250.
Proof.
  intro x. unfold out_of_range, TEMP_MIN, TEMP_MAX.
  rewrite orb_false_iff, Z.ltb_ge, Z.gtb_ltb, Z.ltb_ge. lia.
Qed.

Lemma out_of_range_true : forall x,
  out_of_range x = true <-> ~ (-400 <= x <= 1250).
Proof.
  intro x. pose proof (out_of_range_false x) as H.
  destruct (out_of_range x); split; intro K; try discriminate; try reflexivity.
  - intro R. apply H in R. discriminate.
  - exfalso. apply K, H. reflexivity.
Qed.

(** ** Classification of the register value (C1) *)

Lemma cycle_reading_classified : forall old values0 stamp,
  is_uint16 values0 ->
  classified old values0 stamp (cycle_reading old values0 stamp).
Proof.
  intros old v stamp Hv. unfold classified, cycle_reading.
  repeat split.
  - intros ->. reflexivity.
  - intros ->. reflexivity.
  - intros H0 H1 R.
    rewrite (proj2 (is_sentinel_false v Hv) (conj H0 H1)).
    rewrite (proj2 (out_of_range_false _) R). reflexivity.
  - intros H0 H1 R.
    rewrite (proj2 (is_sentinel_false v Hv) (conj H0 H1)).
    rewrite (proj2 (out_of_range_true _) R). reflexivity.
Qed.

(** C1.  For every 16-bit register value [values0] a successful transport
    read returns: 0x0000 and 0xFFFF mark the reading invalid with the
    sentinel's own error text; any other value whose signed 16-bit reading
    [v] lies in [-400, 1250] (bounds included) is stored as [v] with the
    flag set and the text cleared; every remaining value marks the reading
    invalid with "Temperature out of range".  This is what [performRead],
    [readTemperature] and a [requestTemperature] that begins a cycle do. *)
Theorem register_value_classification : forall values0 rest now clk w,
  is_uint16 values0 ->
  classified (reading w) values0 now
    (reading (exec (performRead (Ok (values0 :: rest)) now) w)) /\
  classified (reading w) values0 now
    (reading (exec (readTemperature (Ok (values0 :: rest)) now) w)) /\
  (begins_cycle clk w = true ->
   classified (reading w) values0 (at_end clk)
     (reading (exec (requestTemperature (Ok (values0 :: rest)) clk) w))).
Proof.
  intros v rest now clk w Hv. split; [|split].
  - rewrite (proj2 (performRead_Ok v rest now w)).
    apply cycle_reading_classified, Hv.
  - rewrite (proj2 (readTemperature_Ok v rest now w)).
    apply cycle_reading_classified, Hv.
  - intro H. rewrite (proj2 (requestTemperature_Ok v rest clk w H)).
    apply cycle_reading_classified, Hv.
Qed.

Lemma register_value_classification_witness :
  is_uint16 65136 /\
  reading (exec (performRead (Ok [65136]) 1000) (boot 3 blank))
    = mkTemperatureData (-400) 1000 true EmptyString.
Proof.
  assert (U : is_uint16 65136) by (unfold is_uint16; lia).
  split; [exact U|].
  destruct (register_value_classification 65136 [] 1000 (mkMillis 0 0 0)
              (boot 3 blank) U) as [[_ [_ [Hvalid _]]] _].
  apply Hvalid; vm_compute; try discriminate; split; discriminate.
Defined.

(** ** The pending flag between calls *)

Lemma idle_begins_cycle : forall clk w,
  _asyncPending (self w) = false -> begins_cycle clk w = true.
Proof. intros clk w H. unfold begins_cycle. rewrite H. reflexivity. Qed.

Lemma requestTemperature_completes : forall r clk w,
  begins_cycle clk w = true ->
  _asyncPending (self (exec (requestTemperature r clk) w)) = false.
Proof.
  intros r clk w H; enter w H; destruct r as [[|v rest]|e]; unroll;
    branches; destruct tp, vp; reflexivity.
Qed.

Lemma readTemperature_pending : forall r now w,
  _asyncPending (self (exec (readTemperature r now) w))
    = _asyncPending (self w).
Proof.
  intros r now w; idle w; destruct r as [[|v rest]|e]; unroll; branches;
    reflexivity.
Qed.

(** ** Rejections keep the last good value (C4) *)

Lemma cycle_reading_rejected : forall old values0 stamp,
  is_uint16 values0 -> rejected values0 ->
  stale_reading old (cycle_reading old values0 stamp).
Proof.
  intros old v stamp Hv R. unfold cycle_reading.
  destruct (is_sentinel v) eqn:S.
  - unfold stale_reading, sentinel_text; cbn.
    destruct (v =? 65535); repeat split; discriminate.
  - apply (is_sentinel_false v Hv) in S. destruct S as [S0 S1].
    destruct R as [R | [R | R]]; try contradiction.
    rewrite (proj2 (out_of_range_true _) R).
    unfold stale_reading; cbn. repeat split; discriminate.
Qed.

(** C4.  A cycle whose register value is rejected (sentinel or range
    violation) leaves the stored temperature and its timestamp as they
    were, clears the valid flag and sets an error text, through
    [performRead], [readTemperature] and a [requestTemperature] that begins
    a cycle.  In particular a cycle storing 100 followed by a sentinel
    cycle ends with value 100 and valid false. *)
Theorem rejection_keeps_last_value : forall values0 rest now clk w,
  is_uint16 values0 -> rejected values0 ->
  stale_reading (reading w)
    (reading (exec (performRead (Ok (values0 :: rest)) now) w)) /\
  stale_reading (reading w)
    (reading (exec (readTemperature (Ok (values0 :: rest)) now) w)) /\
  (begins_cycle clk w = true ->
   stale_reading (reading w)
     (reading (exec (requestTemperature (Ok (values0 :: rest)) clk) w))) /\
  (values0 = 0 \/ values0 = 65535 ->
   let sync := run [callReadTemperature (Ok [100]) now;
                    callReadTemperature (Ok [values0]) now] w in
   celsius (reading sync) = 100 /\ valid (reading sync) = false) /\
  (values0 = 0 \/ values0 = 65535 -> begins_cycle clk w = true ->
   let async := run [callRequestTemperature (Ok [100]) clk;
                     callRequestTemperature (Ok [values0]) clk] w in
   celsius (reading async) = 100 /\ valid (reading async) = false).
Proof.
  intros v rest now clk w Hv R. split; [|split; [|split; [|split]]].
  - rewrite (proj2 (performRead_Ok v rest now w)).
    apply cycle_reading_rejected; assumption.
  - rewrite (proj2 (readTemperature_Ok v rest now w)).
    apply cycle_reading_rejected; assumption.
  - intro H. rewrite (proj2 (requestTemperature_Ok v rest clk w H)).
    apply cycle_reading_rejected; assumption.
  - intros S; cbn.
    rewrite (proj2 (readTemperature_Ok v [] now _)).
    rewrite (proj2 (readTemperature_Ok 100 [] now w)).
    destruct S as [-> | ->]; split; reflexivity.
  - intros S H; cbn.
    pose proof (requestTemperature_completes (Ok [100]) clk w H) as P.
    rewrite (proj2 (requestTemperature_Ok v [] clk _
                      (idle_begins_cycle clk _ P))).
    rewrite (proj2 (requestTemperature_Ok 100 [] clk w H)).
    destruct S as [-> | ->]; split; reflexivity.
Qed.

Lemma rejection_keeps_last_value_witness :
  let w := run [callReadTemperature (Ok [100]) 1000] (boot 3 blank) in
  let clk := mkMillis 6000 6001 6050 in
  is_uint16 0 /\ rejected 0 /\ begins_cycle clk w = true /\
  stale_reading (mkTemperatureData 100 1000 true EmptyString)
    (reading (exec (requestTemperature (Ok [0]) clk) w)).
Proof.
  assert (U : is_uint16 0) by (unfold is_uint16; lia).
  assert (R : rejected 0) by (left; reflexivity).
  split; [exact U|]. split; [exact R|]. split; [reflexivity|].
  apply (rejection_keeps_last_value 0 [] 0 (mkMillis 6000 6001 6050)
           (run [callReadTemperature (Ok [100]) 1000] (boot 3 blank)) U R).
  reflexivity.
Defined.

(** ** Return value of the synchronous read (C5) *)

Lemma cycle_ok_true : forall v, is_uint16 v ->
  (cycle_ok v = true <->
   v <> 0 /\ v <> 65535 /\ -400 <= to_int16 v <= 1250).
Proof.
  intros v Hv. unfold cycle_ok.
  rewrite andb_true_iff, !negb_true_iff.
  rewrite (is_sentinel_false v Hv), out_of_range_false. tauto.
Qed.

(** C5.  [readTemperature] returns true exactly when the transport
    succeeded with a first register that is neither sentinel and whose
    signed value lies in [-400, 1250]; on every other outcome it returns
    false.  The returned flag is the valid flag the cycle stored. *)
Theorem readTemperature_true_iff_valid : forall res now w,
  wf_result res ->
  (result (readTemperature res now) w = true <->
   exists values0 rest, res = Ok (values0 :: rest) /\
     values0 <> 0 /\ values0 <> 65535 /\
     -400 <= to_int16 values0 <= 1250) /\
  result (readTemperature res now) w
    = valid (reading (exec (readTemperature res now) w)).
Proof.
  intros res now w Hwf. destruct res as [[|v rest]|e].
  - split; [|reflexivity]. split; [discriminate|].
    intros (v & rest & E & _); discriminate.
  - cbn in Hwf. apply Forall_inv in Hwf.
    destruct (readTemperature_Ok v rest now w) as [Hr Hrd].
    rewrite Hr, Hrd. split.
    + rewrite (cycle_ok_true v Hwf). split.
      * intro H. exists v, rest. split; [reflexivity|exact H].
      * intros (v' & rest' & E & H). injection E as <- <-. exact H.
    + unfold cycle_ok, cycle_reading.
      destruct (is_sentinel v); [reflexivity|].
      destruct (out_of_range (to_int16 v)); reflexivity.
  - split; [|reflexivity]. split; [discriminate|].
    intros (v & rest & E & _); discriminate.
Qed.

Lemma readTemperature_true_iff_valid_witness :
  wf_result (Ok [264]) /\
  result (readTemperature (Ok [264]) 1000) (boot 3 blank) = true.
Proof.
  assert (W : wf_result (Ok [264])).
  { constructor; [unfold is_uint16; lia | constructor]. }
  split; [exact W|].
  apply (proj1 (readTemperature_true_iff_valid (Ok [264]) 1000
                  (boot 3 blank) W)).
  exists 264, []. split; [reflexivity|].
  split; [discriminate|]. split; [discriminate|].
  vm_compute; split; discriminate.
Defined.

(** ** The pending gate of the asynchronous entry point (C7) *)

Lemma requestTemperature_blocked : forall res clk w,
  begins_cycle clk w = false -> requestTemperature res clk w = (false, w).
Proof.
  intros res clk w H. unfold begins_cycle, stale in H.
  destruct w as [[sa cfg rd conn pend started tp vp cnt errt] mem trk].
  cbn in H. destruct pend; cbn in H; [|discriminate].
  unfold requestTemperature, bind, get; cbn. rewrite H. reflexivity.
Qed.

Lemma requestTemperature_abandons : forall res clk w,
  begins_cycle clk w = true ->
  requestTemperature res clk w
    = requestTemperature res clk (exec (set_asyncPending false) w).
Proof.
  intros res clk w H. unfold begins_cycle, stale in H.
  destruct w as [[sa cfg rd conn pend started tp vp cnt errt] mem trk].
  cbn in H. destruct pend; cbn in H; [|reflexivity].
  unfold requestTemperature, bind, get; cbn. rewrite H. reflexivity.
Qed.

Lemma requestTemperature_starts : forall res clk w,
  begins_cycle clk w = true ->
  _asyncStartTime (self (exec (requestTemperature res clk) w)) = at_start clk /\
  exists call, tracker (exec (requestTemperature res clk) w)
               = (tracker w ++ [call])%list.
Proof.
  intros res clk w H; enter w H; destruct res as [[|v rest]|e]; unroll;
    branches; destruct tp, vp; (split; [reflexivity | eexists; reflexivity]).
Qed.

Lemma elapsed_without_wrap : forall now started,
  is_uint32 now -> is_uint32 started -> started <= now ->
  to_uint32 (now - started) = now - started.
Proof.
  intros now started Hn Hs Hle. unfold to_uint32, is_uint32 in *.
  apply Z.mod_small. lia.
Qed.

(** What a [requestTemperature] that goes past its guards does with the
    transport result: the flag and the reading store the result
    determines, the one tracker call, the connected flag and the counter
    of [performRead] on the same result, and the bound slots. *)
Lemma begun_cycle_outcome : forall res clk w,
  begins_cycle clk w = true ->
  let wa := exec (requestTemperature res clk) w in
  let ws := exec (performRead res (at_end clk)) w in
  result (requestTemperature res clk) w = cycle_flag res /\
  reading wa = cycle_store (reading w) res (at_end clk) /\
  tracker wa
    = (tracker w ++ [tracker_call (serverAddress (self w)) res])%list /\
  result (requestTemperature res clk) w
    = result (performRead res (at_end clk)) w /\
  reading wa = reading ws /\
  connected wa = connected ws /\
  rejections wa = rejections ws /\
  (cycle_flag res = true ->
   (forall p, _temperaturePtr (self w) = Some p ->
      int16_cells (memory wa) p = celsius (reading wa)) /\
   (forall q, _validityPtr (self w) = Some q ->
      bool_cells (memory wa) q = true)) /\
  (cycle_flag res = false -> memory wa = memory w).
Proof.
  intros res clk w H; enter w H; destruct res as [[|v rest]|e]; unroll;
    unfold cycle_flag, cycle_store, tracker_call; branches;
    destruct tp, vp; cbn; repeat split; intros;
    try discriminate; try reflexivity;
    match goal with
    | E : Some _ = Some _ |- _ =>
        injection E as <-; unfold store; rewrite Nat.eqb_refl; reflexivity
    end.
Qed.

(** C7.  In a state with an asynchronous cycle pending, let [elapsed] be
    the 32-bit difference between the clock and the time the cycle
    started.  If [elapsed] does not exceed the configured timeout,
    [requestTemperature] returns false and changes nothing.  If it exceeds
    the timeout, the pending cycle is dropped and the call behaves as it
    does in the same state with nothing pending, that is, it runs a new
    cycle on the transport result: it stamps the start time, returns the
    flag and leaves the reading store that the transport result
    determines (those of [performRead] on that result, with its connected
    flag and counter), makes the one tracker call for that result,
    publishes value and true to the bound slots on success and leaves the
    caller's memory alone otherwise, and ends with nothing pending.  While
    the clock has not wrapped, [elapsed] is the plain difference of the two
    times. *)
Theorem pending_gate : forall res clk w,
  _asyncPending (self w) = true ->
  let elapsed := to_uint32 (at_check clk - _asyncStartTime (self w)) in
  (elapsed <= timeout (_config (self w)) ->
   requestTemperature res clk w = (false, w)) /\
  (elapsed > timeout (_config (self w)) ->
   let wa := exec (requestTemperature res clk) w in
   let ws := exec (performRead res (at_end clk)) w in
   requestTemperature res clk w
     = requestTemperature res clk (exec (set_asyncPending false) w) /\
   _asyncStartTime (self wa) = at_start clk /\
   _asyncPending (self wa) = false /\
   (exists call, tracker wa = (tracker w ++ [call])%list) /\
   result (requestTemperature res clk) w = cycle_flag res /\
   reading wa = cycle_store (reading w) res (at_end clk) /\
   tracker wa
     = (tracker w ++ [tracker_call (serverAddress (self w)) res])%list /\
   result (requestTemperature res clk) w
     = result (performRead res (at_end clk)) w /\
   reading wa = reading ws /\
   connected wa = connected ws /\
   rejections wa = rejections ws /\
   (cycle_flag res = true ->
    (forall p, _temperaturePtr (self w) = Some p ->
       int16_cells (memory wa) p = celsius (reading wa)) /\
    (forall q, _validityPtr (self w) = Some q ->
       bool_cells (memory wa) q = true)) /\
   (cycle_flag res = false -> memory wa = memory w)) /\
  (is_uint32 (at_check clk) -> is_uint32 (_asyncStartTime (self w)) ->
   _asyncStartTime (self w) <= at_check clk ->
   elapsed = at_check clk - _asyncStartTime (self w)).
Proof.
  intros res clk w P elapsed. split; [|split].
  - intro Hle. apply requestTemperature_blocked.
    unfold begins_cycle, stale. rewrite P. cbn.
    fold elapsed. rewrite Z.gtb_ltb. apply Z.ltb_ge. exact Hle.
  - intros Hgt wa ws.
    assert (B : begins_cycle clk w = true).
    { unfold begins_cycle, stale. rewrite P. cbn.
      fold elapsed. rewrite Z.gtb_ltb. apply Z.ltb_lt. lia. }
    split; [apply requestTemperature_abandons, B|].
    split; [apply requestTemperature_starts, B|].
    split; [apply requestTemperature_completes, B|].
    split; [apply requestTemperature_starts, B|].
    exact (begun_cycle_outcome res clk w B).
  - intros Hn Hs Hle. apply elapsed_without_wrap; assumption.
Qed.

Lemma pending_gate_witness :
  let late := mkMillis 5201 5202 5250 in
  _asyncPending (self (pending_since 5000)) = true /\
  requestTemperature (Ok [264]) (mkMillis 5200 5201 5250) (pending_since 5000)
    = (false, pending_since 5000) /\
  _asyncStartTime (self (exec (requestTemperature (Ok [264]) late)
                           (pending_since 5000))) = 5202 /\
  result (requestTemperature (Ok [264]) late) (pending_since 5000) = true /\
  reading (exec (requestTemperature (Ok [264]) late) (pending_since 5000))
    = mkTemperatureData 264 5250 true EmptyString /\
  reading (exec (requestTemperature (Err TIMEOUT) late) (pending_since 5000))
    = mkTemperatureData 0 0 false "Timeout".
Proof.
  split; [reflexivity|]. split; [|split; [|split; [|split]]].
  - apply (pending_gate (Ok [264]) (mkMillis 5200 5201 5250)
             (pending_since 5000) eq_refl).
    vm_compute. discriminate.
  - exact (proj1 (proj2 (proj1 (proj2 (pending_gate (Ok [264])
             (mkMillis 5201 5202 5250) (pending_since 5000) eq_refl))
             eq_refl))).
  - exact (proj1 (proj2 (proj2 (proj2 (proj2 (proj1 (proj2
             (pending_gate (Ok [264]) (mkMillis 5201 5202 5250)
                (pending_since 5000) eq_refl)) eq_refl)))))).
  - exact (proj1 (proj2 (proj2 (proj2 (proj2 (proj2 (proj1 (proj2
             (pending_gate (Ok [264]) (mkMillis 5201 5202 5250)
                (pending_since 5000) eq_refl)) eq_refl))))))).
  - exact (proj1 (proj2 (proj2 (proj2 (proj2 (proj2 (proj1 (proj2
             (pending_gate (Err TIMEOUT) (mkMillis 5201 5202 5250)
                (pending_since 5000) eq_refl)) eq_refl))))))).
Defined.

(** ** The reading-store invariant (C8) *)

Lemma failed_reading_invariant : forall old msg,
  reading_invariant (failed_reading old msg).
Proof. intros old msg H; discriminate. Qed.

Lemma cycle_reading_invariant : forall old values0 stamp,
  reading_invariant (cycle_reading old values0 stamp).
Proof.
  intros old v stamp. unfold cycle_reading.
  destruct (is_sentinel v); [apply failed_reading_invariant|].
  destruct (out_of_range (to_int16 v)) eqn:R;
    [apply failed_reading_invariant|].
  intros _; cbn. split; [reflexivity | apply out_of_range_false, R].
Qed.

Lemma readTemperature_invariant : forall res now w,
  reading_invariant (reading (exec (readTemperature res now) w)).
Proof.
  intros [[|v rest]|e] now w.
  - rewrite (proj1 (proj2 (readTemperature_empty now w))).
    apply failed_reading_invariant.
  - rewrite (proj2 (readTemperature_Ok v rest now w)).
    apply cycle_reading_invariant.
  - rewrite (proj1 (proj2 (readTemperature_Err e now w))).
    apply failed_reading_invariant.
Qed.

Lemma requestTemperature_invariant : forall res clk w,
  reading_invariant (reading w) ->
  reading_invariant (reading (exec (requestTemperature res clk) w)).
Proof.
  intros res clk w I. destruct (begins_cycle clk w) eqn:B.
  - destruct res as [[|v rest]|e].
    + rewrite (proj1 (proj2 (requestTemperature_empty clk w B))).
      apply failed_reading_invariant.
    + rewrite (proj2 (requestTemperature_Ok v rest clk w B)).
      apply cycle_reading_invariant.
    + rewrite (proj1 (proj2 (requestTemperature_Err e clk w B))).
      apply failed_reading_invariant.
  - unfold exec. rewrite (requestTemperature_blocked res clk w B). exact I.
Qed.

Lemma step_invariant : forall o w,
  reading_invariant (reading w) -> reading_invariant (reading (step o w)).
Proof.
  intros [res now | res clk | | | c | t v] w I; cbn.
  - apply readTemperature_invariant.
  - apply requestTemperature_invariant, I.
  - exact I.
  - exact I.
  - exact I.
  - exact I.
Qed.

(** C8.  In every state reachable from construction by synchronous reads,
    asynchronous requests, result fetches, completion queries,
    reconfiguration and pointer binding, a reading store whose valid flag
    is true has an empty error text and a value in [-400, 1250]. *)
Theorem valid_reading_invariant : forall w,
  reachable w ->
  valid (reading w) = true ->
  error (reading w) = EmptyString /\ -400 <= celsius (reading w) <= 1250.
Proof.
  intros w R. change (reading_invariant (reading w)).
  induction R as [addr m | w o R IH].
  - intro H; discriminate.
  - apply step_invariant, IH.
Qed.

Lemma valid_reading_invariant_witness :
  let w := step (callRequestTemperature (Ok [65136]) (mkMillis 10 11 60))
             (boot 3 blank) in
  reachable w /\ valid (reading w) = true /\
  error (reading w) = EmptyString /\ -400 <= celsius (reading w) <= 1250.
Proof.
  assert (R : reachable
                (step (callRequestTemperature (Ok [65136]) (mkMillis 10 11 60))
                   (boot 3 blank))) by (apply reach_step, reach_boot).
  split; [exact R|]. split; [reflexivity|].
  apply (valid_reading_invariant _ R). reflexivity.
Defined.

(** ** Fault tracking: connected flag and rejection counter (C2) *)

(** A Valid cycle, through either entry point, zeroes the counter and sets
    the connected flag. *)
Lemma valid_cycle_reconnects : forall values0 rest now clk w,
  cycle_ok values0 = true ->
  (rejections (exec (readTemperature (Ok (values0 :: rest)) now) w) = 0 /\
   connected (exec (readTemperature (Ok (values0 :: rest)) now) w) = true) /\
  (begins_cycle clk w = true ->
   rejections (exec (requestTemperature (Ok (values0 :: rest)) clk) w) = 0 /\
   connected (exec (requestTemperature (Ok (values0 :: rest)) clk) w) = true).
Proof.
  intros v rest now clk w K. unfold cycle_ok, is_sentinel, out_of_range in K.
  split.
  - idle w; unroll; branches; cbn in K; try discriminate; split; reflexivity.
  - intro H; enter w H; unroll; branches; cbn in K; try discriminate;
      destruct tp, vp; split; reflexivity.
Qed.

(** A sentinel through [requestTemperature]: the 8-bit counter goes up by
    one and the flag is the test [counter < 3]. *)
Lemma async_sentinel_counts : forall values0 rest clk w,
  begins_cycle clk w = true ->
  is_sentinel values0 = true ->
  rejections (exec (requestTemperature (Ok (values0 :: rest)) clk) w)
    = to_uint8 (rejections w + 1) /\
  connected (exec (requestTemperature (Ok (values0 :: rest)) clk) w)
    = (to_uint8 (rejections w + 1) <? 3).
Proof.
  intros v rest clk w H K. unfold is_sentinel in K.
  enter w H; unroll; branches; cbn in K; try discriminate;
    split; reflexivity.
Qed.

(** A range violation through [requestTemperature]: the flag drops at
    once and the counter is not touched. *)
Lemma async_range_violation_disconnects : forall values0 rest clk w,
  begins_cycle clk w = true ->
  is_sentinel values0 = false ->
  out_of_range (to_int16 values0) = true ->
  rejections (exec (requestTemperature (Ok (values0 :: rest)) clk) w)
    = rejections w /\
  connected (exec (requestTemperature (Ok (values0 :: rest)) clk) w) = false.
Proof.
  intros v rest clk w H K R. unfold is_sentinel in K. unfold out_of_range in R.
  enter w H; unroll; branches; cbn in K, R; try discriminate;
    split; reflexivity.
Qed.

Lemma sentinel_run : forall faults w,
  Forall (fun f => is_sentinel (fst f) = true) faults ->
  _asyncPending (self w) = false ->
  0 <= rejections w ->
  rejections w + Z.of_nat (List.length faults) < 256 ->
  _asyncPending (self (run (sentinel_requests faults) w)) = false /\
  rejections (run (sentinel_requests faults) w)
    = rejections w + Z.of_nat (List.length faults) /\
  (faults <> [] ->
   connected (run (sentinel_requests faults) w)
     = (rejections (run (sentinel_requests faults) w) <? 3)).
Proof.
  induction faults as [|[v clk] faults IH]; intros w F P N B.
  - cbn. split; [exact P|]. split; [lia|]. intro C; contradiction.
  - inversion F as [|? ? Fv Ffs]; subst. cbn [fst] in Fv.
    pose proof (idle_begins_cycle clk w P) as G.
    destruct (async_sentinel_counts v [] clk w G Fv) as [Hc Hk].
    pose proof (requestTemperature_completes (Ok [v]) clk w G) as P'.
    assert (E : to_uint8 (rejections w + 1) = rejections w + 1).
    { unfold to_uint8. apply Z.mod_small.
      cbn [List.length] in B. lia. }
    rewrite E in Hc, Hk.
    change (run (sentinel_requests ((v, clk) :: faults)) w)
      with (run (sentinel_requests faults)
              (exec (requestTemperature (Ok [v]) clk) w)).
    specialize (IH (exec (requestTemperature (Ok [v]) clk) w) Ffs P').
    rewrite Hc in IH.
    assert (N' : 0 <= rejections w + 1) by lia.
    assert (B' : rejections w + 1 + Z.of_nat (List.length faults) < 256).
    { cbn [List.length] in B. lia. }
    destruct (IH N' B') as [IP [IC IK]].
    split; [exact IP|]. split.
    + rewrite IC. cbn [List.length]. lia.
    + intros _. destruct faults as [|f faults].
      * cbn [sentinel_requests map run fold_left]. rewrite Hk, Hc.
        reflexivity.
      * apply IK. discriminate.
Qed.

(** Through [readTemperature] a single sentinel clears the flag whatever
    the counter says: the wrapper overrides the test made in
    [performRead]. *)
Lemma sync_sentinel_disconnects_at_once : forall values0 rest now w,
  is_sentinel values0 = true ->
  connected (exec (performRead (Ok (values0 :: rest)) now) w)
    = (to_uint8 (rejections w + 1) <? 3) /\
  connected (exec (readTemperature (Ok (values0 :: rest)) now) w) = false.
Proof.
  intros v rest now w K. unfold is_sentinel in K.
  idle w; unroll; branches; cbn in K; try discriminate; split; reflexivity.
Qed.

(** The counter is 8 bits wide: the sentinel after the 255th wraps it to 0
    and the flag comes back. *)
Lemma counter_wraps : forall values0 rest clk w,
  begins_cycle clk w = true ->
  is_sentinel values0 = true ->
  rejections w = 255 ->
  rejections (exec (requestTemperature (Ok (values0 :: rest)) clk) w) = 0 /\
  connected (exec (requestTemperature (Ok (values0 :: rest)) clk) w) = true.
Proof.
  intros v rest clk w H K C.
  destruct (async_sentinel_counts v rest clk w H K) as [Hc Hk].
  rewrite Hc, Hk, C. split; reflexivity.
Qed.

(** C2, counterexample.  After one Valid cycle, a single range violation
    through [requestTemperature] takes the connected flag from true to
    false while the counter is still 0: one rejection, not three. *)
Lemma hysteresis_counterexample :
  let clk := mkMillis 0 1 50 in
  let w := step (callRequestTemperature (Ok [100]) clk) (boot 3 blank) in
  let w' := step (callRequestTemperature (Ok [2000]) clk) w in
  (reachable w /\ connected w = true /\
   valid (reading w') = false /\
   error (reading w') = "Temperature out of range" /\
   connected w' = false /\ rejections w' = 0) /\
  ~ drops_only_after_three.
Proof.
  assert (R : reachable
            (step (callRequestTemperature (Ok [100]) (mkMillis 0 1 50))
               (boot 3 blank))) by (apply reach_step, reach_boot).
  split.
  - split; [exact R|]. repeat split.
  - intro C.
    specialize (C _ (callRequestTemperature (Ok [2000]) (mkMillis 0 1 50))
                  R eq_refl eq_refl).
    vm_compute in C. apply C. reflexivity.
Qed.

(** C2, as amended.  A Valid cycle, through either entry point, resets the
    counter to 0 and the connected flag to true.  Through
    [requestTemperature], a range violation clears the flag at once and
    leaves the counter alone, and after a Valid cycle a run of [k]
    consecutive sentinel replies (0 < k < 256) leaves the counter at [k] and
    the flag at [k < 3]: true after the first and the second, false from
    the third. *)
Theorem fault_tracking_as_built : forall values0 rest now clk w faults,
  (cycle_ok values0 = true ->
   (rejections (exec (readTemperature (Ok (values0 :: rest)) now) w) = 0 /\
    connected (exec (readTemperature (Ok (values0 :: rest)) now) w) = true) /\
   (begins_cycle clk w = true ->
    rejections (exec (requestTemperature (Ok (values0 :: rest)) clk) w) = 0 /\
    connected (exec (requestTemperature (Ok (values0 :: rest)) clk) w)
      = true)) /\
  (begins_cycle clk w = true ->
   is_sentinel values0 = false -> out_of_range (to_int16 values0) = true ->
   rejections (exec (requestTemperature (Ok (values0 :: rest)) clk) w)
     = rejections w /\
   connected (exec (requestTemperature (Ok (values0 :: rest)) clk) w)
     = false) /\
  (begins_cycle clk w = true -> cycle_ok values0 = true ->
   Forall (fun f => is_sentinel (fst f) = true) faults ->
   0 < Z.of_nat (List.length faults) < 256 ->
   let w1 := exec (requestTemperature (Ok (values0 :: rest)) clk) w in
   rejections (run (sentinel_requests faults) w1)
     = Z.of_nat (List.length faults) /\
   connected (run (sentinel_requests faults) w1)
     = (Z.of_nat (List.length faults) <? 3)).
Proof.
  intros v rest now clk w faults. split; [|split].
  - intro K. apply valid_cycle_reconnects, K.
  - apply async_range_violation_disconnects.
  - intros H K F [L0 L1] w1.
    destruct (proj2 (valid_cycle_reconnects v rest now clk w K) H) as [Hc _].
    pose proof (requestTemperature_completes (Ok (v :: rest)) clk w H) as P.
    fold w1 in Hc, P.
    assert (N : 0 <= rejections w1) by lia.
    assert (B : rejections w1 + Z.of_nat (List.length faults) < 256) by lia.
    destruct (sentinel_run faults w1 F P N B) as [_ [IC IK]].
    rewrite Hc in IC. split; [exact IC|].
    rewrite IK, IC; [reflexivity|].
    intros ->. cbn in L0. lia.
Qed.

Lemma fault_tracking_as_built_witness :
  let clk := mkMillis 0 1 50 in
  let faults := [(0, clk); (65535, clk); (0, clk)] in
  let w1 := exec (requestTemperature (Ok [264]) clk) (boot 3 blank) in
  begins_cycle clk (boot 3 blank) = true /\ cycle_ok 264 = true /\
  Forall (fun f => is_sentinel (fst f) = true) faults /\
  0 < Z.of_nat (List.length faults) < 256 /\
  rejections (run (sentinel_requests faults) w1) = 3 /\
  connected (run (sentinel_requests faults) w1) = false.
Proof.
  assert (F : Forall (fun f : Z * Millis => is_sentinel (fst f) = true)
                [(0, mkMillis 0 1 50); (65535, mkMillis 0 1 50);
                 (0, mkMillis 0 1 50)]).
  { repeat constructor. }
  assert (L : 0 < Z.of_nat (List.length
                 [(0, mkMillis 0 1 50); (65535, mkMillis 0 1 50);
                  (0, mkMillis 0 1 50)]) < 256).
  { cbn. lia. }
  split; [reflexivity|]. split; [reflexivity|].
  split; [exact F|]. split; [exact L|].
  exact (proj2 (proj2 (fault_tracking_as_built 264 [] 0 (mkMillis 0 1 50)
                         (boot 3 blank) _))
           eq_refl eq_refl F L).
Defined.

(** ** The bound output slots (C3) *)

Lemma readTemperature_never_publishes : forall res now w,
  memory (exec (readTemperature res now) w) = memory w.
Proof.
  intros res now w; idle w; destruct res as [[|v rest]|e]; unroll; branches;
    reflexivity.
Qed.

Lemma async_valid_publishes : forall values0 rest clk w p q,
  begins_cycle clk w = true ->
  cycle_ok values0 = true ->
  _temperaturePtr (self w) = Some p -> _validityPtr (self w) = Some q ->
  let w' := exec (requestTemperature (Ok (values0 :: rest)) clk) w in
  int16_cells (memory w') p = to_int16 values0 /\
  bool_cells (memory w') q = true.
Proof.
  intros v rest clk w p q H K Tp Vp.
  unfold cycle_ok, is_sentinel, out_of_range in K.
  enter w H; cbn in Tp, Vp; subst; unroll; branches; cbn in K;
    try discriminate; unfold store; rewrite !Nat.eqb_refl; split; reflexivity.
Qed.

Lemma async_rejection_never_publishes : forall values0 rest clk w,
  cycle_ok values0 = false ->
  memory (exec (requestTemperature (Ok (values0 :: rest)) clk) w) = memory w.
Proof.
  intros v rest clk w K. destruct (begins_cycle clk w) eqn:H.
  - unfold cycle_ok, is_sentinel, out_of_range in K.
    enter w H; unroll; branches; cbn in K; try discriminate; reflexivity.
  - unfold exec. rewrite (requestTemperature_blocked _ clk w H). reflexivity.
Qed.

(** The failure branch of [handleReadComplete], the routine behind the
    queued path, does clear a bound valid slot. *)
Lemma handleReadComplete_failure_clears_slot : forall value now w q,
  _validityPtr (self w) = Some q ->
  bool_cells (memory (exec (handleReadComplete false value now) w)) q = false.
Proof.
  intros value now w q Vp; idle w. unfold store. rewrite Nat.eqb_refl.
  reflexivity.
Qed.

(** C3, the code at the failing inputs.  With the value slot bound to
    [int16_t] cell 1 and the valid slot to [bool] cell 2 (initially 0 and
    false): an asynchronous Valid(100) cycle publishes 100 and true; the
    sentinel cycle that follows marks the reading invalid but leaves the
    valid slot at true; and a synchronous Valid(100) cycle stores the
    reading without writing either slot. *)
Theorem binding_fidelity_failing_input :
  let clk := mkMillis 0 1 50 in
  let w0 := exec (bindTemperaturePointers (Some 1%nat) (Some 2%nat))
              (boot 3 blank) in
  let w1 := exec (requestTemperature (Ok [100]) clk) w0 in
  let w2 := exec (requestTemperature (Ok [0]) clk) w1 in
  let s1 := exec (readTemperature (Ok [100]) 50) w0 in
  (result (requestTemperature (Ok [100]) clk) w0 = true /\
   int16_cells (memory w1) 1%nat = 100 /\
   bool_cells (memory w1) 2%nat = true) /\
  (result (requestTemperature (Ok [0]) clk) w1 = false /\
   valid (reading w2) = false /\
   int16_cells (memory w2) 1%nat = 100 /\
   bool_cells (memory w2) 2%nat = true) /\
  (result (readTemperature (Ok [100]) 50) w0 = true /\
   reading s1 = mkTemperatureData 100 50 true EmptyString /\
   int16_cells (memory s1) 1%nat = 0 /\
   bool_cells (memory s1) 2%nat = false).
Proof. vm_compute. repeat split. Qed.

(** ** The configuration (C9) *)

(** C9, counterexample.  Constructing with address 0 yields a Config whose
    address is 0, and [setConfig] with timeout 0 yields a Config whose
    timeout is 0: both states are reachable and break the invariant. *)
Lemma config_invariant_counterexample :
  let w := boot 0 blank in
  let w' := run [callSetConfig (mkConfig 3 0 3)] (boot 3 blank) in
  (reachable w /\ _config (self w) = mkConfig 0 200 3 /\
   ~ config_invariant (_config (self w))) /\
  (reachable w' /\ _config (self w') = mkConfig 3 0 3 /\
   ~ config_invariant (_config (self w'))).
Proof.
  split.
  - split; [apply reach_boot|]. split; [reflexivity|].
    intros [[A _] _]. vm_compute in A. apply A. reflexivity.
  - split; [apply reach_step, reach_boot|]. split; [reflexivity|].
    intros [_ T]. vm_compute in T. discriminate.
Qed.

Lemma step_config : forall o w,
  _config (self (step o w))
    = match o with callSetConfig c => c | _ => _config (self w) end.
Proof.
  intros [res now | res clk | | | c | t v] w; try reflexivity.
  - idle w; destruct res as [[|v rest]|e]; unroll; branches; reflexivity.
  - cbn [step]. destruct (begins_cycle clk w) eqn:H.
    + enter w H; destruct res as [[|v rest]|e]; unroll; branches;
        destruct tp, vp; reflexivity.
    + unfold exec. rewrite (requestTemperature_blocked _ clk w H).
      reflexivity.
Qed.

Lemma run_config_invariant : forall ops w,
  config_invariant (_config (self w)) ->
  Forall configures_within_bounds ops ->
  config_invariant (_config (self (run ops w))).
Proof.
  induction ops as [|o ops IH]; intros w I F; [exact I|].
  inversion F as [|? ? Fo Fops]; subst.
  change (run (o :: ops) w) with (run ops (step o w)).
  apply IH; [|exact Fops].
  rewrite step_config. destruct o; try exact I. exact Fo.
Qed.

(** C9, as amended.  The constructor stores the address it is given next
    to the default timeout 200 and retries 3, and [setConfig] stores the
    Config it is given; neither checks anything.  Hence, from a
    construction with an address in [1, 247], through any sequence of
    operations whose [setConfig] arguments have an address in [1, 247] and
    a positive timeout, the Config held has an address in [1, 247] and a
    positive timeout. *)
Theorem config_follows_the_caller : forall addr m ops,
  _config (self (boot addr m)) = mkConfig addr 200 3 /\
  (forall c w, _config (self (step (callSetConfig c) w)) = c) /\
  (1 <= addr <= 247 ->
   Forall configures_within_bounds ops ->
   config_invariant (_config (self (run ops (boot addr m))))).
Proof.
  intros addr m ops. split; [reflexivity|]. split; [reflexivity|].
  intros A F. apply run_config_invariant; [|exact F].
  split; [exact A | reflexivity].
Qed.

Lemma config_follows_the_caller_witness :
  let ops := [callSetConfig (mkConfig 5 1000 3);
              callReadTemperature (Ok [264]) 1000] in
  1 <= 247 <= 247 /\ Forall configures_within_bounds ops /\
  config_invariant (_config (self (run ops (boot 247 blank)))).
Proof.
  assert (A : 1 <= 247 <= 247) by lia.
  assert (F : Forall configures_within_bounds
                [callSetConfig (mkConfig 5 1000 3);
                 callReadTemperature (Ok [264]) 1000]).
  { repeat constructor; cbn; lia. }
  split; [exact A|]. split; [exact F|].
  exact (proj2 (proj2 (config_follows_the_caller 247 blank _)) A F).
Defined.

(** ** The queued-response path *)

(** [onAsyncResponse] is reached from [process()] through the framework's
    queue, not through the operations above.  It has no range test: a
    payload of 0x07D0 (2000) is stored as a valid reading. *)
Lemma queued_response_skips_range_check :
  reading (exec (onAsyncResponse FUNCTION_CODE TEMP_REGISTER [7; 208] 99)
             (boot 3 blank))
    = mkTemperatureData 2000 99 true EmptyString.
Proof. reflexivity. Qed.

Lemma queued_response_ignores_other_registers : forall fc reg data now w,
  (fc =? FUNCTION_CODE) && (reg =? TEMP_REGISTER) = false ->
  exec (onAsyncResponse fc reg data now) w = w.
Proof.
  intros fc reg data now w H.
  unfold exec, onAsyncResponse, bind, getServerAddress, get; cbn.
  destruct (fc =? FUNCTION_CODE); cbn in *; [|reflexivity].
  rewrite H. reflexivity.
Qed.

(** * Further properties of the driver *)

(** ** Error texts *)

(** X1.  The display strings of transport errors are pairwise different,
    never empty, and none of them is one of the texts the driver writes for
    its own failures: the error text of a reading tells the failures
    apart. *)
Theorem error_texts_tell_failures_apart :
  (forall e1 e2, modbusErrorToString e1 = modbusErrorToString e2 -> e1 = e2) /\
  (forall e, modbusErrorToString e <> EmptyString) /\
  (forall e, ~ In (modbusErrorToString e) driver_texts) /\
  NoDup driver_texts.
Proof.
  split; [|split; [|split]].
  - intros e1 e2; destruct e1, e2; intro H; try reflexivity; discriminate H.
  - intro e; destruct e; discriminate.
  - intros e H; cbn in H.
    destruct e; cbn in H; repeat (destruct H as [H|H]; [discriminate|]);
      exact H.
  - unfold driver_texts.
    repeat (constructor;
            [cbn; intro H;
             repeat (destruct H as [H|H]; [discriminate|]); exact H|]).
    constructor.
Qed.

(** ** The synchronous entry point and the connected flag *)

(** X2.  After [readTemperature] the connected flag equals the flag the
    call returned, whatever the transport delivered and whatever the
    rejection counter holds. *)
Theorem readTemperature_connected_is_result : forall res now w,
  connected (exec (readTemperature res now) w)
    = result (readTemperature res now) w.
Proof.
  intros res now w; idle w; destruct res as [[|v rest]|e]; unroll; branches;
    reflexivity.
Qed.

(** ** Completion of an asynchronous request *)

(** X3.  A [requestTemperature] that begins a cycle has completed when it
    returns: [isReadComplete] answers true, and [getAsyncResult] hands out
    the stored reading together with the very flag the request returned,
    which is the reading's valid flag; neither accessor changes the
    state. *)
Theorem request_then_fetch : forall res clk w,
  begins_cycle clk w = true ->
  let w' := exec (requestTemperature res clk) w in
  let ok := result (requestTemperature res clk) w in
  isReadComplete w' = (true, w') /\
  getAsyncResult w' = ((reading w', ok), w') /\
  valid (reading w') = ok.
Proof.
  intros res clk w H; enter w H; destruct res as [[|v rest]|e]; unroll;
    branches; destruct tp, vp; repeat split.
Qed.

Lemma request_then_fetch_witness :
  let clk := mkMillis 0 1 50 in
  let w' := exec (requestTemperature (Ok [264]) clk) (boot 3 blank) in
  begins_cycle clk (boot 3 blank) = true /\
  getAsyncResult w' = ((mkTemperatureData 264 50 true EmptyString, true), w').
Proof.
  split; [reflexivity|].
  exact (proj1 (proj2 (request_then_fetch (Ok [264]) (mkMillis 0 1 50)
                         (boot 3 blank) eq_refl))).
Defined.

(** ** Invariants of an engine in service *)

(** Turn the recorded outcomes of comparisons into arithmetic facts. *)
Ltac outcomes :=
  repeat match goal with
         | E : (_ =? _) = true |- _ => apply Z.eqb_eq in E
         | E : (_ =? _) = false |- _ => apply Z.eqb_neq in E
         | E : (_ <? _) = true |- _ => apply Z.ltb_lt in E
         | E : (_ <? _) = false |- _ => apply Z.ltb_ge in E
         | E : (_ >? _) = true |- _ => rewrite Z.gtb_ltb in E
         | E : (_ >? _) = false |- _ => rewrite Z.gtb_ltb in E
         end.

Lemma to_uint8_bounds : forall z, 0 <= to_uint8 z < 256.
Proof. intro z. unfold to_uint8. apply Z.mod_pos_bound. lia. Qed.

Ltac settle :=
  cbn in *;
  repeat match goal with
         | |- _ /\ _ => split
         | |- _ -> _ => intro
         end;
  try reflexivity; try discriminate; try assumption;
  try apply to_uint8_bounds; try apply to_int16_bounds;
  outcomes; try lia.

Lemma occur_service_invariant : forall ev w,
  service_invariant w -> service_invariant (occur ev w).
Proof.
  intros ev w (P & C & K & V & G).
  unfold service_invariant, rejections, connected, reading in *.
  destruct w as [[sa cfg rd conn pend started tp vp cnt errt] mem trk].
  cbn in P, C, K, V, G; subst pend.
  destruct ev as [[res now | res clk | | | c | t v] | fc reg data now];
    cbn [occur step].
  - destruct res as [[|x rest]|e]; unroll; branches; settle.
  - destruct res as [[|x rest]|e]; unroll; branches; destruct tp, vp; settle.
  - settle; tauto.
  - settle; tauto.
  - settle; tauto.
  - settle; tauto.
  - unfold exec, onAsyncResponse, handleReadComplete, bind, get,
      getServerAddress; cbn.
    destruct (fc =? FUNCTION_CODE); cbn; [|settle; tauto].
    destruct (reg =? TEMP_REGISTER); cbn; [|settle; tauto].
    destruct data as [|d0 [|d1 rest]]; cbn; try (settle; tauto).
    branches; destruct tp, vp; settle.
Qed.

Lemma in_service_invariant : forall w, in_service w -> service_invariant w.
Proof.
  induction 1 as [addr m | w ev S IH].
  - unfold service_invariant; cbn. repeat split; try lia; discriminate.
  - apply occur_service_invariant, IH.
Qed.

(** X4.  Between events no asynchronous cycle is ever left pending:
    in every state an engine in service can reach, [isReadComplete]
    answers true and a [requestTemperature] call goes past its guards and
    begins a cycle, whatever the clock reads. *)
Theorem never_left_pending : forall w,
  in_service w ->
  _asyncPending (self w) = false /\
  isReadComplete w = (true, w) /\
  (forall clk, begins_cycle clk w = true).
Proof.
  intros w S. destruct (in_service_invariant w S) as (P & _).
  split; [exact P|]. split.
  - unfold isReadComplete, bind, get, ret. rewrite P. reflexivity.
  - intro clk. apply idle_begins_cycle, P.
Qed.

Lemma never_left_pending_witness :
  let w := occur (call (callRequestTemperature (Err TIMEOUT) (mkMillis 0 1 50)))
             (boot 3 blank) in
  in_service w /\ isReadComplete w = (true, w).
Proof.
  assert (S : in_service
                (occur (call (callRequestTemperature (Err TIMEOUT)
                                (mkMillis 0 1 50))) (boot 3 blank)))
    by (apply service_event, service_boot).
  split; [exact S|].
  exact (proj1 (proj2 (never_left_pending _ S))).
Defined.

(** X5.  In every state an engine in service can reach, the rejection
    counter is an 8-bit value, and a connected flag that reads true goes
    with fewer than three counted rejections. *)
Theorem connected_bounds_rejections : forall w,
  in_service w ->
  0 <= rejections w < 256 /\
  (connected w = true -> rejections w < 3).
Proof.
  intros w S. destruct (in_service_invariant w S) as (_ & C & K & _ & _).
  split; assumption.
Qed.

Lemma connected_bounds_rejections_witness :
  let clk := mkMillis 0 1 50 in
  let w := occur (call (callRequestTemperature (Ok [0]) clk))
             (occur (deliver FUNCTION_CODE TEMP_REGISTER [1; 8] 40)
                (boot 3 blank)) in
  in_service w /\ connected w = true /\ rejections w = 1 /\
  0 <= rejections w < 256.
Proof.
  assert (S : in_service
           (occur (call (callRequestTemperature (Ok [0]) (mkMillis 0 1 50)))
              (occur (deliver FUNCTION_CODE TEMP_REGISTER [1; 8] 40)
                 (boot 3 blank))))
    by (apply service_event, service_event, service_boot).
  split; [exact S|]. split; [reflexivity|]. split; [reflexivity|].
  exact (proj1 (connected_bounds_rejections _ S)).
Defined.

(** X6.  A reading that is marked valid never holds the value 0 and
    always has an empty error text, in every state an engine in service
    can reach, through the public operations and the queued responses
    alike: 0.0 degrees is never reported as a valid temperature. *)
Theorem valid_reading_is_never_zero : forall w,
  in_service w ->
  valid (reading w) = true ->
  error (reading w) = EmptyString /\ celsius (reading w) <> 0 /\
  -32768 <= celsius (reading w) < 32768.
Proof.
  intros w S. destruct (in_service_invariant w S) as (_ & _ & _ & V & _).
  exact V.
Qed.

Lemma valid_reading_is_never_zero_witness :
  let w := occur (deliver FUNCTION_CODE TEMP_REGISTER [7; 208] 99)
             (boot 3 blank) in
  in_service w /\ valid (reading w) = true /\ celsius (reading w) = 2000 /\
  celsius (reading w) <> 0.
Proof.
  assert (S : in_service
                (occur (deliver FUNCTION_CODE TEMP_REGISTER [7; 208] 99)
                   (boot 3 blank)))
    by (apply service_event, service_boot).
  split; [exact S|]. split; [reflexivity|]. split; [reflexivity|].
  exact (proj1 (proj2 (valid_reading_is_never_zero _ S eq_refl))).
Defined.

(** ** The two entry points share one cycle *)

(** X7.  A [requestTemperature] that begins a cycle does what
    [performRead] does with the same transport result and the same clock
    reading: same returned flag, same reading store, same connected flag,
    same rejection counter and error time, same tracker call.  (It also
    stamps the start time and, on success, publishes to the bound
    slots.) *)
Theorem request_runs_the_same_cycle : forall res clk w,
  begins_cycle clk w = true ->
  let wa := exec (requestTemperature res clk) w in
  let ws := exec (performRead res (at_end clk)) w in
  result (requestTemperature res clk) w
    = result (performRead res (at_end clk)) w /\
  reading wa = reading ws /\
  connected wa = connected ws /\
  rejections wa = rejections ws /\
  _lastErrorTime (self wa) = _lastErrorTime (self ws) /\
  tracker wa = tracker ws.
Proof.
  intros res clk w H; enter w H; destruct res as [[|v rest]|e]; unroll;
    branches; destruct tp, vp; repeat split.
Qed.

Lemma request_runs_the_same_cycle_witness :
  let clk := mkMillis 0 1 50 in
  begins_cycle clk (boot 3 blank) = true /\
  reading (exec (requestTemperature (Ok [65535]) clk) (boot 3 blank))
    = reading (exec (performRead (Ok [65535]) 50) (boot 3 blank)).
Proof.
  split; [reflexivity|].
  exact (proj1 (proj2 (request_runs_the_same_cycle (Ok [65535])
                         (mkMillis 0 1 50) (boot 3 blank) eq_refl))).
Defined.

(** ** Calls to the error tracker *)

(** X8.  Every [readTemperature] call, and every [requestTemperature]
    call that begins a cycle, reports to the error tracker exactly once,
    under the engine's server address: a success when and only when the
    call returns true, the categorised transport error when the transport
    failed, and invalid data for an empty reply, a sentinel or a range
    violation. *)
Theorem one_tracker_call_per_cycle : forall res now clk w,
  let addr := serverAddress (self w) in
  (tracker (exec (readTemperature res now) w)
     = (tracker w ++ [tracker_call addr res])%list /\
   (result (readTemperature res now) w = true <->
    tracker_call addr res = recordedSuccess addr)) /\
  (begins_cycle clk w = true ->
   tracker (exec (requestTemperature res clk) w)
     = (tracker w ++ [tracker_call addr res])%list /\
   (result (requestTemperature res clk) w = true <->
    tracker_call addr res = recordedSuccess addr)).
Proof.
  intros res now clk w addr; subst addr. split.
  - idle w; destruct res as [[|v rest]|e]; unroll; unfold tracker_call;
      branches; (split; [reflexivity|]); split; intro; try reflexivity;
      discriminate.
  - intro H; enter w H; destruct res as [[|v rest]|e]; unroll;
      unfold tracker_call; branches; destruct tp, vp;
      (split; [reflexivity|]); split; intro; try reflexivity; discriminate.
Qed.

Lemma one_tracker_call_per_cycle_witness :
  let clk := mkMillis 0 1 50 in
  begins_cycle clk (boot 3 blank) = true /\
  tracker (exec (requestTemperature (Err CRC_ERROR) clk) (boot 3 blank))
    = [recordedError 3 (categorizeError CRC_ERROR)].
Proof.
  split; [reflexivity|].
  exact (proj1 (proj2 (one_tracker_call_per_cycle (Err CRC_ERROR) 0
                         (mkMillis 0 1 50) (boot 3 blank)) eq_refl)).
Defined.

(** ** The queued-response path against the entry points *)

Lemma high_low_disjoint : forall a b,
  0 <= b < 256 -> Z.land (Z.shiftl a 8) b = 0.
Proof.
  intros a b Hb. apply Z.bits_inj'. intros n Hn.
  rewrite Z.land_spec, Z.bits_0.
  destruct (Z.ltb_spec n 8) as [L|G].
  - rewrite Z.shiftl_spec_low by exact L. reflexivity.
  - destruct (Z.eq_dec b 0) as [->|Nz].
    + rewrite Z.bits_0. apply andb_false_r.
    + rewrite (Z.bits_above_log2 b n); [apply andb_false_r | lia |].
      apply Z.log2_lt_pow2; [lia|].
      apply Z.lt_le_trans with (2 ^ 8); [cbn; lia|].
      apply Z.pow_le_mono_r; lia.
Qed.

Lemma wire_bytes_decode : forall r,
  Z.lor (Z.shiftl (r / 256) 8) (r mod 256) = r.
Proof.
  intro r.
  pose proof (Z.mod_pos_bound r 256 ltac:(lia)) as Hb.
  pose proof (Z.add_lor_land (Z.shiftl (r / 256) 8) (r mod 256)) as A.
  rewrite (high_low_disjoint _ _ Hb) in A.
  assert (S : Z.shiftl (r / 256) 8 = r / 256 * 256).
  { rewrite Z.shiftl_mul_pow2 by lia. reflexivity. }
  pose proof (Z.div_mod r 256 ltac:(lia)). lia.
Qed.

Lemma to_uint16_to_int16 : forall z, to_uint16 (to_int16 z) = to_uint16 z.
Proof.
  intro z. unfold to_int16, to_uint16.
  pose proof (Z.mod_pos_bound z 65536 ltac:(lia)) as Hb.
  destruct (z mod 65536 <? 32768).
  - apply Z.mod_mod. lia.
  - replace (z mod 65536 - 65536) with (z mod 65536 + (-1) * 65536) by lia.
    rewrite Z.mod_add by lia. apply Z.mod_mod. lia.
Qed.

Lemma onAsyncResponse_register : forall r now w,
  is_uint16 r ->
  exec (onAsyncResponse FUNCTION_CODE TEMP_REGISTER (wire_bytes r) now) w
    = exec (if is_sentinel r
            then (addr <- getServerAddress ;;
                  n <- get _consecutive0x0000Errors ;;
                  set_consecutive0x0000Errors (to_uint8 (n + 1)) ;;
                  recordError addr INVALID_DATA ;;
                  set_valid false ;;
                  set_error (sentinel_text r) ;;
                  n' <- get _consecutive0x0000Errors ;;
                  set_connected (n' <? 3) ;;
                  set_lastErrorTime now ;;
                  set_asyncPending false)
            else (addr <- getServerAddress ;;
                  set_consecutive0x0000Errors 0 ;;
                  recordSuccess addr ;;
                  handleReadComplete true (to_int16 r) now ;;
                  set_asyncPending false)) w.
Proof.
  intros r now w Hr.
  unfold wire_bytes, onAsyncResponse, is_sentinel, sentinel_text.
  change (FUNCTION_CODE =? FUNCTION_CODE) with true.
  change (TEMP_REGISTER =? TEMP_REGISTER) with true.
  cbv beta iota zeta delta [negb].
  rewrite wire_bytes_decode, to_uint16_to_int16.
  unfold to_uint16 at 1 2. rewrite Z.mod_small by exact Hr.
  unfold exec, bind, getServerAddress, get.
  destruct w as [[sa cfg rd conn pend started tp vp cnt errt] mem trk].
  cbn. destruct ((to_int16 r =? 0) || (r =? 65535)); reflexivity.
Qed.

(** X9.  For a register value that is a sentinel or lies in range, the
    queued path fed with the value's two wire bytes (high byte first) ends
    in the same reading store, connected flag, rejection counter, caller
    memory and tracker log as a [requestTemperature] cycle that read the
    same value at the same clock reading, and it leaves nothing pending. *)
Theorem queued_response_matches_request : forall r clk w,
  is_uint16 r ->
  begins_cycle clk w = true ->
  is_sentinel r = true \/ cycle_ok r = true ->
  let wq := exec (onAsyncResponse FUNCTION_CODE TEMP_REGISTER (wire_bytes r)
                    (at_end clk)) w in
  let wa := exec (requestTemperature (Ok [r]) clk) w in
  reading wq = reading wa /\
  connected wq = connected wa /\
  rejections wq = rejections wa /\
  memory wq = memory wa /\
  tracker wq = tracker wa /\
  _asyncPending (self wq) = false.
Proof.
  intros r clk w Hr H K.
  rewrite (onAsyncResponse_register r (at_end clk) w Hr).
  unfold cycle_ok, sentinel_text in *.
  destruct (is_sentinel r) eqn:S; unfold is_sentinel, out_of_range in *.
  - enter w H; unroll; unfold handleReadComplete, bind, get; cbn;
      branches; cbn in S; try discriminate; repeat split.
  - destruct K as [K|K]; [discriminate|]. cbn in K.
    enter w H; unroll; unfold handleReadComplete, bind, get; cbn;
      branches; cbn in S, K; try discriminate; destruct tp, vp;
      repeat split.
Qed.

Lemma queued_response_matches_request_witness :
  let clk := mkMillis 0 1 50 in
  is_uint16 65136 /\ begins_cycle clk (boot 3 blank) = true /\
  (is_sentinel 65136 = true \/ cycle_ok 65136 = true) /\
  reading (exec (onAsyncResponse FUNCTION_CODE TEMP_REGISTER [254; 112] 50)
             (boot 3 blank))
    = reading (exec (requestTemperature (Ok [65136]) clk) (boot 3 blank)).
Proof.
  assert (U : is_uint16 65136) by (unfold is_uint16; lia).
  split; [exact U|]. split; [reflexivity|].
  split; [right; reflexivity|].
  exact (proj1 (queued_response_matches_request 65136 (mkMillis 0 1 50)
                  (boot 3 blank) U eq_refl (or_intror eq_refl))).
Defined.

(** X10.  The queued path has no range test: for every register value
    that is not a sentinel it stores the signed value as a valid reading,
    sets the connected flag and zeroes the counter, also when the value
    lies outside [-400, 1250], where both entry points reject it. *)
Theorem queued_response_has_no_range_check : forall r now w,
  is_uint16 r ->
  r <> 0 -> r <> 65535 ->
  let wq := exec (onAsyncResponse FUNCTION_CODE TEMP_REGISTER (wire_bytes r)
                    now) w in
  reading wq = mkTemperatureData (to_int16 r) now true EmptyString /\
  connected wq = true /\ rejections wq = 0 /\
  (~ (-400 <= to_int16 r <= 1250) ->
   result (readTemperature (Ok [r]) now) w = false).
Proof.
  intros r now w Hr N0 N1.
  rewrite (onAsyncResponse_register r now w Hr).
  rewrite (proj2 (is_sentinel_false r Hr) (conj N0 N1)).
  split; [|split; [|split]].
  - idle w. unfold exec, handleReadComplete, bind, get; cbn.
    destruct tp, vp; reflexivity.
  - idle w. unfold exec, handleReadComplete, bind, get; cbn.
    destruct tp, vp; reflexivity.
  - idle w. unfold exec, handleReadComplete, bind, get; cbn.
    destruct tp, vp; reflexivity.
  - intro R. rewrite (proj1 (readTemperature_Ok r [] now w)).
    unfold cycle_ok. rewrite (proj2 (out_of_range_true _) R).
    apply andb_false_r.
Qed.

Lemma queued_response_has_no_range_check_witness :
  is_uint16 2000 /\ 2000 <> 0 /\ 2000 <> 65535 /\
  reading (exec (onAsyncResponse FUNCTION_CODE TEMP_REGISTER [7; 208] 99)
             (boot 3 blank))
    = mkTemperatureData 2000 99 true EmptyString.
Proof.
  assert (U : is_uint16 2000) by (unfold is_uint16; lia).
  assert (N0 : 2000 <> 0) by discriminate.
  assert (N1 : 2000 <> 65535) by discriminate.
  split; [exact U|]. split; [exact N0|]. split; [exact N1|].
  exact (proj1 (queued_response_has_no_range_check 2000 99 (boot 3 blank)
                  U N0 N1)).
Defined.

(** X11.  A queued response for another function code or another
    register is ignored altogether (even a pending flag stays as it is),
    and a response for the temperature register with fewer than two
    payload bytes is a failure of its own: the reading keeps value and
    timestamp and becomes invalid with "Invalid response length", the
    connected flag drops, nothing stays pending, and the counter and the
    caller's memory are not touched. *)
Theorem queued_response_edge_cases : forall fc reg data now w,
  ((fc =? FUNCTION_CODE) && (reg =? TEMP_REGISTER) = false ->
   exec (onAsyncResponse fc reg data now) w = w) /\
  ((List.length data < 2)%nat ->
   let w' := exec (onAsyncResponse FUNCTION_CODE TEMP_REGISTER data now) w in
   reading w' = failed_reading (reading w) "Invalid response length" /\
   connected w' = false /\
   _asyncPending (self w') = false /\
   rejections w' = rejections w /\
   memory w' = memory w).
Proof.
  intros fc reg data now w. split.
  - apply queued_response_ignores_other_registers.
  - intro L. destruct data as [|d0 [|d1 rest]]; [| |cbn in L; lia];
      idle w; repeat split.
Qed.

Lemma queued_response_edge_cases_witness :
  (exec (onAsyncResponse 3 TEMP_REGISTER [1; 8] 40) (pending_since 5000)
     = pending_since 5000) /\
  reading (exec (onAsyncResponse FUNCTION_CODE TEMP_REGISTER [1] 40)
             (pending_since 5000))
    = mkTemperatureData 0 0 false "Invalid response length".
Proof.
  split.
  - apply (proj1 (queued_response_edge_cases 3 TEMP_REGISTER [1; 8] 40
                    (pending_since 5000))).
    reflexivity.
  - apply (proj2 (queued_response_edge_cases FUNCTION_CODE TEMP_REGISTER
                    [1] 40 (pending_since 5000))).
    cbn. lia.
Defined.

(** ** Writes to the caller's memory *)

Lemma store_other : forall (A : Type) (m : ptr -> A) a p v,
  Some a <> Some p -> store m a v p = m p.
Proof.
  intros A m a p v N. unfold store.
  destruct (Nat.eqb_spec p a) as [->|]; [contradiction N; reflexivity|].
  reflexivity.
Qed.

(** X12.  [getAsyncResult] assigns the stored reading to the object its
    caller passes in.  Every other event writes the caller's memory only
    through the two bound pointers: an [int16_t] cell that is not the
    bound value slot and a [bool] cell that is not the bound valid slot
    keep their contents through [readTemperature], [requestTemperature],
    [isReadComplete], [setConfig], [bindTemperaturePointers] and every
    queued response, and with both pointers null these events leave the
    caller's memory as it is. *)
Theorem only_bound_slots_are_written : forall ev w,
  ev <> call callGetAsyncResult ->
  (forall p, _temperaturePtr (self w) <> Some p ->
     int16_cells (memory (occur ev w)) p = int16_cells (memory w) p) /\
  (forall q, _validityPtr (self w) <> Some q ->
     bool_cells (memory (occur ev w)) q = bool_cells (memory w) q) /\
  (_temperaturePtr (self w) = None -> _validityPtr (self w) = None ->
   memory (occur ev w) = memory w).
Proof.
  intros ev w NotFetch.
  destruct w as [[sa cfg rd conn pend started tp vp cnt errt] [ic bc] trk].
  destruct ev as [[res now | res clk | | | c | t v] | fc reg data now];
    cbn [occur step self memory _temperaturePtr _validityPtr
         int16_cells bool_cells].
  - destruct res as [[|x rest]|e]; unroll; branches; repeat split;
      intros; subst; reflexivity.
  - destruct (begins_cycle clk
                (mkWorld (mkANDRTF3 sa cfg rd conn pend started tp vp cnt errt)
                   (mkMemory ic bc) trk)) eqn:H.
    + destruct pend; unfold begins_cycle, stale in H; cbn in H;
        [unfold exec, requestTemperature, bind, get; cbn; rewrite H; cbn|];
        destruct res as [[|x rest]|e]; unroll; branches;
        destruct tp, vp; cbn; repeat split; intros;
        try discriminate; try reflexivity; apply store_other; assumption.
    + unfold exec. rewrite (requestTemperature_blocked _ _ _ H).
      repeat split; intros; reflexivity.
  - repeat split; intros; reflexivity.
  - contradiction NotFetch; reflexivity.
  - repeat split; intros; reflexivity.
  - repeat split; intros; reflexivity.
  - unfold exec, onAsyncResponse, handleReadComplete, bind, get,
      getServerAddress; cbn.
    destruct (fc =? FUNCTION_CODE); cbn;
      [|repeat split; intros; reflexivity].
    destruct (reg =? TEMP_REGISTER); cbn;
      [|repeat split; intros; reflexivity].
    destruct data as [|d0 [|d1 rest]]; cbn;
      try (repeat split; intros; reflexivity).
    branches; destruct tp, vp; cbn; repeat split; intros;
      try discriminate; try reflexivity; apply store_other; assumption.
Qed.

Lemma only_bound_slots_are_written_witness :
  let w := exec (bindTemperaturePointers (Some 1%nat) (Some 2%nat))
             (boot 3 blank) in
  let ev := call (callRequestTemperature (Ok [264]) (mkMillis 0 1 50)) in
  ev <> call callGetAsyncResult /\
  _temperaturePtr (self w) <> Some 5%nat /\
  int16_cells (memory (occur ev w)) 1%nat = 264 /\
  int16_cells (memory (occur ev w)) 5%nat = 0.
Proof.
  assert (E : call (callRequestTemperature (Ok [264]) (mkMillis 0 1 50))
              <> call callGetAsyncResult) by discriminate.
  assert (N : _temperaturePtr
                (self (exec (bindTemperaturePointers (Some 1%nat)
                               (Some 2%nat)) (boot 3 blank)))
              <> Some 5%nat) by discriminate.
  split; [exact E|]. split; [exact N|]. split; [reflexivity|].
  exact (proj1 (only_bound_slots_are_written
                  (call (callRequestTemperature (Ok [264]) (mkMillis 0 1 50)))
                  _ E) 5%nat N).
Defined.

(** X13.  Whenever [requestTemperature] returns true on an engine with
    both slots bound, the value slot holds the temperature
    [getTemperature] now returns, a value in [-400, 1250], and the valid
    slot holds true. *)
Theorem success_publishes_the_stored_value : forall res clk w p q,
  _temperaturePtr (self w) = Some p ->
  _validityPtr (self w) = Some q ->
  result (requestTemperature res clk) w = true ->
  let w' := exec (requestTemperature res clk) w in
  int16_cells (memory w') p = result getTemperature w' /\
  -400 <= int16_cells (memory w') p <= 1250 /\
  bool_cells (memory w') q = true /\
  valid (reading w') = true.
Proof.
  intros res clk w p q Tp Vp R.
  destruct (begins_cycle clk w) eqn:H.
  - destruct res as [[|v rest]|e].
    + rewrite (proj1 (requestTemperature_empty clk w H)) in R. discriminate.
    + destruct (requestTemperature_Ok v rest clk w H) as [Hr Hrd].
      rewrite Hr in R.
      destruct (async_valid_publishes v rest clk w p q H R Tp Vp) as [Pv Pb].
      cbv zeta. rewrite Pv, Pb.
      unfold result, getTemperature, get; cbn [fst].
      fold (reading (exec (requestTemperature (Ok (v :: rest)) clk) w)).
      rewrite Hrd. unfold cycle_reading.
      unfold cycle_ok in R. apply andb_true_iff in R. destruct R as [R1 R2].
      apply negb_true_iff in R1, R2. rewrite R1, R2. cbn.
      repeat split; try reflexivity; apply out_of_range_false, R2.
    + rewrite (proj1 (requestTemperature_Err e clk w H)) in R. discriminate.
  - unfold result in R. rewrite (requestTemperature_blocked _ _ _ H) in R.
    discriminate.
Qed.

Lemma success_publishes_the_stored_value_witness :
  let w := exec (bindTemperaturePointers (Some 1%nat) (Some 2%nat))
             (boot 3 blank) in
  let w' := exec (requestTemperature (Ok [65136]) (mkMillis 0 1 50)) w in
  int16_cells (memory w') 1%nat = result getTemperature w' /\
  -400 <= int16_cells (memory w') 1%nat <= 1250 /\
  bool_cells (memory w') 2%nat = true /\
  valid (reading w') = true.
Proof.
  exact (success_publishes_the_stored_value (Ok [65136]) (mkMillis 0 1 50)
           (exec (bindTemperaturePointers (Some 1%nat) (Some 2%nat))
              (boot 3 blank)) 1%nat 2%nat eq_refl eq_refl eq_refl).
Defined.

(** ** The 8-bit rejection counter *)

Lemma run_app : forall a b w, run (a ++ b) w = run b (run a w).
Proof. intros a b w. unfold run. apply fold_left_app. Qed.

(** X14.  The rejection counter is 8 bits wide and is not saturated:
    starting idle with the counter at 0, a run of exactly 256 consecutive
    sentinel replies through [requestTemperature] wraps the counter back to
    0 and ends with the connected flag true again, although no valid
    reading arrived. *)
Theorem sentinel_run_of_256_reconnects : forall faults w,
  _asyncPending (self w) = false ->
  rejections w = 0 ->
  Forall (fun f => is_sentinel (fst f) = true) faults ->
  Z.of_nat (List.length faults) = 256 ->
  rejections (run (sentinel_requests faults) w) = 0 /\
  connected (run (sentinel_requests faults) w) = true /\
  valid (reading (run (sentinel_requests faults) w)) = false.
Proof.
  intros faults w P C F L.
  destruct faults as [|f0 faults0] using rev_ind; [cbn in L; lia|].
  clear IHfaults0.
  apply Forall_app in F. destruct F as [F Flast].
  inversion Flast as [|? ? Fs _]; subst.
  rewrite length_app in L. cbn [List.length] in L.
  assert (B : rejections w + Z.of_nat (List.length faults0) < 256) by lia.
  assert (N : 0 <= rejections w) by lia.
  destruct (sentinel_run faults0 w F P N B) as [IP [IC _]].
  unfold sentinel_requests. rewrite map_app, run_app.
  fold (sentinel_requests faults0). destruct f0 as [v clk].
  cbn [map run fold_left step fst snd].
  set (w1 := run (sentinel_requests faults0) w) in *.
  pose proof (idle_begins_cycle clk w1 IP) as G.
  assert (C1 : rejections w1 = 255) by lia.
  destruct (counter_wraps v [] clk w1 G Fs C1) as [Hc Hk].
  split; [exact Hc|]. split; [exact Hk|].
  rewrite (proj2 (requestTemperature_Ok v [] clk w1 G)).
  unfold cycle_reading. cbn [fst] in Fs. rewrite Fs. reflexivity.
Qed.

Lemma sentinel_run_of_256_reconnects_witness :
  let faults := repeat (0, mkMillis 0 1 50) (Z.to_nat 256) in
  _asyncPending (self (boot 3 blank)) = false /\
  rejections (boot 3 blank) = 0 /\
  Forall (fun f => is_sentinel (fst f) = true) faults /\
  Z.of_nat (List.length faults) = 256 /\
  connected (run (sentinel_requests faults) (boot 3 blank)) = true.
Proof.
  assert (F : Forall (fun f : Z * Millis => is_sentinel (fst f) = true)
                (repeat (0, mkMillis 0 1 50) (Z.to_nat 256))).
  { apply Forall_forall. intros x Hx. apply repeat_spec in Hx.
    subst x. reflexivity. }
  assert (L : Z.of_nat (List.length
                (repeat (0, mkMillis 0 1 50) (Z.to_nat 256))) = 256).
  { rewrite repeat_length. reflexivity. }
  split; [reflexivity|]. split; [reflexivity|].
  split; [exact F|]. split; [exact L|].
  exact (proj1 (proj2 (sentinel_run_of_256_reconnects _ (boot 3 blank)
                         eq_refl eq_refl F L))).
Defined.

(** ** The staleness test and the wrapping clock *)

Lemma elapsed_across_wrap : forall started d,
  0 <= d < 4294967296 ->
  to_uint32 (to_uint32 (started + d) - started) = d.
Proof.
  intros started d Hd. unfold to_uint32.
  rewrite Zminus_mod_idemp_l.
  replace (started + d - started) with d by lia.
  apply Z.mod_small. exact Hd.
Qed.

(** X15.  The staleness test measures the time that really elapsed, also
    across a wrap of the 32-bit millisecond clock: if a cycle is pending
    since [started] and [d] milliseconds (less than 2^32) have passed, so
    that the clock reads [started + d] modulo 2^32, then
    [requestTemperature] is refused without any change when [d] is at most
    the timeout, and begins a new cycle when [d] exceeds it: it stamps the
    start time and returns the flag and leaves the reading store that the
    transport result determines. *)
Theorem staleness_survives_clock_wrap : forall res clk w d,
  _asyncPending (self w) = true ->
  0 <= d < 4294967296 ->
  at_check clk = to_uint32 (_asyncStartTime (self w) + d) ->
  stale clk w = (d >? timeout (_config (self w))) /\
  (d <= timeout (_config (self w)) ->
   requestTemperature res clk w = (false, w)) /\
  (d > timeout (_config (self w)) ->
   begins_cycle clk w = true /\
   _asyncStartTime (self (exec (requestTemperature res clk) w))
     = at_start clk /\
   result (requestTemperature res clk) w = cycle_flag res /\
   reading (exec (requestTemperature res clk) w)
     = cycle_store (reading w) res (at_end clk)).
Proof.
  intros res clk w d P Hd Hc.
  assert (S : stale clk w = (d >? timeout (_config (self w)))).
  { unfold stale. rewrite P, Hc, elapsed_across_wrap by exact Hd.
    reflexivity. }
  assert (B : begins_cycle clk w = (d >? timeout (_config (self w)))).
  { unfold begins_cycle. rewrite P, S. reflexivity. }
  split; [exact S|]. split.
  - intro Hle. apply requestTemperature_blocked. rewrite B.
    rewrite Z.gtb_ltb. apply Z.ltb_ge. exact Hle.
  - intro Hgt.
    assert (B' : begins_cycle clk w = true).
    { rewrite B, Z.gtb_ltb. apply Z.ltb_lt. lia. }
    split; [exact B'|].
    split; [apply requestTemperature_starts, B'|].
    split; apply (begun_cycle_outcome res clk w B').
Qed.

Lemma staleness_survives_clock_wrap_witness :
  let w := pending_since 4294967200 in
  _asyncPending (self w) = true /\
  0 <= 201 < 4294967296 /\
  105 = to_uint32 (_asyncStartTime (self w) + 201) /\
  stale (mkMillis 105 106 150) w = true.
Proof.
  assert (Hd : 0 <= 201 < 4294967296) by lia.
  split; [reflexivity|]. split; [exact Hd|]. split; [reflexivity|].
  exact (proj1 (staleness_survives_clock_wrap (Ok [264])
                  (mkMillis 105 106 150) (pending_since 4294967200) 201
                  eq_refl Hd eq_refl)).
Defined.

(** ** What the configuration influences *)

(** X16.  Of the configuration only the timeout is ever consulted, and
    only by the pending gate of [requestTemperature]: replacing the
    configuration before a synchronous read, an asynchronous request or a
    queued response gives the same returned flag and the same state as
    replacing it afterwards, provided (for the request) that the timeout
    is unchanged.  The configured address and retries change no
    behaviour. *)
Theorem configuration_is_inert : forall c w,
  (forall res now,
     readTemperature res now (exec (setConfig c) w)
       = (result (readTemperature res now) w,
          exec (setConfig c) (exec (readTemperature res now) w))) /\
  (forall fc reg data now,
     exec (onAsyncResponse fc reg data now) (exec (setConfig c) w)
       = exec (setConfig c) (exec (onAsyncResponse fc reg data now) w)) /\
  (timeout c = timeout (_config (self w)) ->
   forall res clk,
     requestTemperature res clk (exec (setConfig c) w)
       = (result (requestTemperature res clk) w,
          exec (setConfig c) (exec (requestTemperature res clk) w))).
Proof.
  intros c w.
  destruct w as [[sa cfg rd conn pend started tp vp cnt errt] mem trk].
  split; [|split].
  - intros res now. destruct res as [[|x rest]|e]; unroll; branches;
      reflexivity.
  - intros fc reg data now.
    unfold exec, onAsyncResponse, handleReadComplete, bind, get,
      getServerAddress; cbn.
    destruct (fc =? FUNCTION_CODE); cbn; [|reflexivity].
    destruct (reg =? TEMP_REGISTER); cbn; [|reflexivity].
    destruct data as [|d0 [|d1 rest]]; cbn; try reflexivity.
    branches; destruct tp, vp; reflexivity.
  - cbn. intros T res clk.
    unfold result, exec, requestTemperature, bind, get, getServerAddress;
      cbn. rewrite T.
    destruct pend; cbn.
    + destruct (to_uint32 (at_check clk - started) >? timeout cfg); cbn;
        [|reflexivity].
      destruct res as [[|x rest]|e]; cbn; try reflexivity.
      branches; destruct tp, vp; reflexivity.
    + destruct res as [[|x rest]|e]; cbn; try reflexivity.
      branches; destruct tp, vp; reflexivity.
Qed.

Lemma configuration_is_inert_witness :
  let w := boot 3 blank in
  let c := mkConfig 9 200 0 in
  timeout c = timeout (_config (self w)) /\
  requestTemperature (Ok [264]) (mkMillis 0 1 50) (exec (setConfig c) w)
    = (true,
       exec (setConfig c)
         (exec (requestTemperature (Ok [264]) (mkMillis 0 1 50)) w)).
Proof.
  split; [reflexivity|].
  exact (proj2 (proj2 (configuration_is_inert (mkConfig 9 200 0)
                         (boot 3 blank)))
           eq_refl (Ok [264]) (mkMillis 0 1 50)).
Defined.

(** ** Valid readings and the connected flag *)

(** X17.  In every state an engine in service can reach, a reading marked
    valid goes with a connected flag that is true and a rejection counter
    at 0: every path that clears the flag or counts a rejection also
    marks the reading invalid. *)
Theorem valid_implies_connected : forall w,
  in_service w ->
  valid (reading w) = true ->
  connected w = true /\ rejections w = 0.
Proof.
  intros w S. destruct (in_service_invariant w S) as (_ & _ & _ & _ & G).
  exact G.
Qed.

Lemma valid_implies_connected_witness :
  let w := occur (call (callReadTemperature (Ok [264]) 1000))
             (occur (call (callReadTemperature (Ok [0]) 900))
                (boot 3 blank)) in
  in_service w /\ valid (reading w) = true /\
  connected w = true /\ rejections w = 0.
Proof.
  assert (S : in_service
           (occur (call (callReadTemperature (Ok [264]) 1000))
              (occur (call (callReadTemperature (Ok [0]) 900))
                 (boot 3 blank))))
    by (apply service_event, service_event, service_boot).
  split; [exact S|]. split; [reflexivity|].
  exact (valid_implies_connected _ S eq_refl).
Defined.

(** ** The all-ones sentinel as a temperature *)

Lemma signed_all_ones : forall x,
  is_uint16 x -> x <> 65535 -> to_int16 x <> -1.
Proof.
  intros x U N Hm. rewrite (to_int16_uint16 x U) in Hm.
  unfold is_uint16 in U. destruct (x <? 32768); lia.
Qed.

Lemma unsigned_all_ones : forall x,
  to_uint16 (to_int16 x) <> 65535 -> to_int16 x <> -1.
Proof. intros x N Hm. apply N. rewrite Hm. reflexivity. Qed.

Lemma occur_never_minus_one : forall ev w,
  well_formed ev ->
  (valid (reading w) = true -> celsius (reading w) <> -1) ->
  valid (reading (occur ev w)) = true -> celsius (reading (occur ev w)) <> -1.
Proof.
  intros ev w W I.
  destruct ev as [[res now | res clk | | | c | t v] | fc reg data now];
    cbn [occur step]; try exact I.
  - destruct res as [[|x rest]|e].
    + rewrite (proj1 (proj2 (readTemperature_empty now w))). discriminate.
    + cbn in W. apply Forall_inv in W.
      rewrite (proj2 (readTemperature_Ok x rest now w)).
      unfold cycle_reading. destruct (is_sentinel x) eqn:S; [discriminate|].
      destruct (out_of_range (to_int16 x)); [discriminate|].
      intros _. cbn. apply signed_all_ones; [exact W|].
      apply (is_sentinel_false x W), S.
    + rewrite (proj1 (proj2 (readTemperature_Err e now w))). discriminate.
  - destruct (begins_cycle clk w) eqn:B.
    + destruct res as [[|x rest]|e].
      * rewrite (proj1 (proj2 (requestTemperature_empty clk w B))).
        discriminate.
      * cbn in W. apply Forall_inv in W.
        rewrite (proj2 (requestTemperature_Ok x rest clk w B)).
        unfold cycle_reading. destruct (is_sentinel x) eqn:S; [discriminate|].
        destruct (out_of_range (to_int16 x)); [discriminate|].
        intros _. cbn. apply signed_all_ones; [exact W|].
        apply (is_sentinel_false x W), S.
      * rewrite (proj1 (proj2 (requestTemperature_Err e clk w B))).
        discriminate.
    + unfold exec. rewrite (requestTemperature_blocked res clk w B). exact I.
  - unfold reading in *.
    destruct w as [[sa cfg rd conn pend started tp vp cnt errt] mem trk].
    unfold exec, onAsyncResponse, handleReadComplete, bind, get,
      getServerAddress; cbn in *.
    destruct (fc =? FUNCTION_CODE); cbn; [|exact I].
    destruct (reg =? TEMP_REGISTER); cbn; [|exact I].
    destruct data as [|d0 [|d1 rest]]; cbn; try discriminate.
    branches; destruct tp, vp; cbn; try discriminate; intros _;
      apply unsigned_all_ones, Z.eqb_neq; assumption.
Qed.

Lemma serve_never_minus_one : forall evs w,
  Forall well_formed evs ->
  (valid (reading w) = true -> celsius (reading w) <> -1) ->
  valid (reading (serve evs w)) = true -> celsius (reading (serve evs w)) <> -1.
Proof.
  induction evs as [|ev evs IH]; intros w F I; [exact I|].
  inversion F as [|? ? Fe Fevs]; subst.
  change (serve (ev :: evs) w) with (serve evs (occur ev w)).
  apply IH; [exact Fevs|]. apply occur_never_minus_one; assumption.
Qed.

(** X18.  When the transport delivers 16-bit registers, no sequence of
    public operations and queued responses ever leaves a valid reading of
    -1: the register value 0xFFFF is rejected on every path, so -0.1
    degrees is never reported as a valid temperature. *)
Theorem minus_one_is_never_valid : forall evs addr m,
  Forall well_formed evs ->
  valid (reading (serve evs (boot addr m))) = true ->
  celsius (reading (serve evs (boot addr m))) <> -1.
Proof.
  intros evs addr m F. apply serve_never_minus_one; [exact F|].
  discriminate.
Qed.

Lemma minus_one_is_never_valid_witness :
  let evs := [call (callReadTemperature (Ok [65535]) 10);
              deliver FUNCTION_CODE TEMP_REGISTER [255; 254] 20] in
  Forall well_formed evs /\
  valid (reading (serve evs (boot 3 blank))) = true /\
  celsius (reading (serve evs (boot 3 blank))) = -2 /\
  celsius (reading (serve evs (boot 3 blank))) <> -1.
Proof.
  assert (F : Forall well_formed
                [call (callReadTemperature (Ok [65535]) 10);
                 deliver FUNCTION_CODE TEMP_REGISTER [255; 254] 20]).
  { repeat constructor. unfold is_uint16. lia. }
  split; [exact F|]. split; [reflexivity|]. split; [reflexivity|].
  exact (minus_one_is_never_valid _ 3 blank F eq_refl).
Defined.
